(* ===================================================================== *)
(* Real-time network attack monitor: decision pipeline                   *)
(*   source: DistilBERT/realtime_network_monitor.py                      *)
(*                                                                       *)
(* Shallow embedding of NetworkAttackDetector (preprocess_features,      *)
(* predict, get_statistics) and of the worker of RealTimeMonitor         *)
(* (process_data_stream, save_result, log_detection).                    *)
(*                                                                       *)
(* Modelling conventions                                                 *)
(*  - Floating-point values (feature values, probabilities, confidence,  *)
(*    latencies, thresholds) are rationals [Q]; the comparisons of the   *)
(*    source are the comparisons of Q.  Rounding is not modelled; the    *)
(*    cast [astype(np.float32)] is a parameter of the development.       *)
(*  - A comparison of the float32 confidence with a Python float is the  *)
(*    comparison of the two values in [predict] (numpy 1.x compares in   *)
(*    float64); [predict_np] takes the conversion that numpy applies to  *)
(*    the Python float as a parameter ([binary32_round] for numpy 2).    *)
(*  - Python [int] is [Z]; [str] is [string]; a [list] is a [list].      *)
(*  - A raised exception is the left injection of a sum.                 *)
(*  - Python truth values keep their dynamic type: a comparison of a     *)
(*    numpy scalar yields [numpy.bool_], the operators [in] / [not in]   *)
(*    yield the builtin [bool], and [and] / [or] return one of their     *)
(*    operands.  [json.dumps] accepts the builtin [bool] only.           *)
(*  - The wall clock is an input: the measured latency and the ISO       *)
(*    timestamp of a prediction are arguments of [predict].              *)
(* ===================================================================== *)

From Stdlib Require Import QArith Qpower Lqa.
From stdpp Require Import gmap strings pretty list sorting fin_maps.

Local Open Scope Z_scope.
Local Open Scope Q_scope.
Local Open Scope string_scope.
Local Open Scope list_scope.

(* --------------------------------------------------------------------- *)
(* Python values used by the program                                     *)
(* --------------------------------------------------------------------- *)

Module Py.

(** Exceptions that the modelled code can raise. *)
Inductive Error : Type :=
| ValueError (msg : string)
| IndexError (msg : string)
| TypeError (msg : string)
| ZeroDivisionError (msg : string)
| RuntimeError (msg : string).

(** [str(e)] *)
Definition str (e : Error) : string :=
  match e with
  | ValueError m | IndexError m | TypeError m
  | ZeroDivisionError m | RuntimeError m => m
  end.

(** Truth values with their dynamic type: the builtin [bool] and
    [numpy.bool_]. *)
Inductive Bool : Type :=
| PyBool (b : bool)
| NpBool (b : bool).

(** [bool(x)], the test of [if x:] *)
Definition truthy (x : Bool) : bool :=
  match x with PyBool b | NpBool b => b end.

(** [x and y]: the first operand when it is falsy, else the second. *)
Definition and_ (x y : Bool) : Bool := if truthy x then y else x.

(** [x or y]: the first operand when it is truthy, else the second. *)
Definition or_ (x y : Bool) : Bool := if truthy x then x else y.

(** [x > y] on rationals *)
Definition gtb (x y : Q) : bool := (Qnum y * QDen x <? Qnum x * QDen y)%Z.

(** [x >= y] on rationals *)
Definition geb (x y : Q) : bool := (Qnum y * QDen x <=? Qnum x * QDen y)%Z.

(** [str.lower()] on the ASCII range; bytes outside [A-Z] are kept.
    (The only non-ASCII code point whose lowercase is an ASCII letter is
    U+212A, which lowers to [k]; the lowercase of any other one keeps a
    non-ASCII code point.  No label tested below contains [k], so a string
    lowers to one of them in Python exactly when it does here.) *)
Definition ascii_lower (c : Ascii.ascii) : Ascii.ascii :=
  let n := Ascii.nat_of_ascii c in
  if ((65 <=? n) && (n <=? 90))%nat then Ascii.ascii_of_nat (n + 32) else c.

Fixpoint lower (s : string) : string :=
  match s with
  | EmptyString => EmptyString
  | String c r => String (ascii_lower c) (lower r)
  end.

(** [needle in hay] on strings: substring test. *)
Fixpoint contains (needle hay : string) : bool :=
  String.prefix needle hay ||
  match hay with
  | EmptyString => false
  | String _ r => contains needle r
  end.

(** [x in l] on a list of strings: some element equals [x]. *)
Definition in_list (x : string) (l : list string) : bool :=
  existsb (String.eqb x) l.

End Py.

(* --------------------------------------------------------------------- *)
(* numpy operations used by the program                                  *)
(* --------------------------------------------------------------------- *)

Module Np.

(** One pass of [np.argmax]: [best] is the index of the running maximum
    [m], [i] the index of the head of the remaining list.  A later
    element replaces the maximum only when it is strictly greater. *)
Fixpoint argmax_from (best : nat) (m : Q) (i : nat) (l : list Q) : nat :=
  match l with
  | [] => best
  | x :: r =>
      if Py.gtb x m then argmax_from i x (S i) r
      else argmax_from best m (S i) r
  end.

(** [np.argmax(a)]: raises ValueError on an empty sequence. *)
Definition argmax (a : list Q) : Py.Error + nat :=
  match a with
  | [] => inl (Py.ValueError "attempt to get argmax of an empty sequence")
  | x :: r => inr (argmax_from 0%nat x 1%nat r)
  end.

Definition sum (a : list Q) : Q := fold_right Qplus 0 a.

(** [np.mean(a)] of a non-empty list *)
Definition mean (a : list Q) : Q := sum a / inject_Z (Z.of_nat (length a)).

Definition max2 (x y : Q) : Q := if Py.gtb y x then y else x.
Definition min2 (x y : Q) : Q := if Py.gtb x y then y else x.

(** [np.max(a)] and [np.min(a)] of a non-empty list with head [x] *)
Definition max (x : Q) (r : list Q) : Q := fold_left max2 r x.
Definition min (x : Q) (r : list Q) : Q := fold_left min2 r x.

End Np.

(* --------------------------------------------------------------------- *)
(* class NetworkAttackDetector                                           *)
(* --------------------------------------------------------------------- *)

(** A two-dimensional array (a DataFrame or an ndarray): a list of rows. *)
Abbreviation Array2D := (list (list Q)).

(** The attributes of [self].  [session] stands for
    [session.run(None, {'features': x})] and yields the [probabilities]
    output; [scaler] stands for [scaler.transform]. *)
Record NetworkAttackDetector : Type := mkDetector {
  session : Array2D -> Py.Error + Array2D;
  scaler : Array2D -> Py.Error + Array2D;
  feature_names : list string;
  classes : list string;
  confidence_threshold : Q;
  low_threat_classes : list string;
  total_predictions : Z;
  attack_detections : Z;
  inference_times : list Q
}.

(** The dictionary returned by [predict].  [is_benign], [is_high_threat]
    and [is_ddos] are results of [in] / [not in] (or the literal [False]),
    hence builtin booleans; [is_attack] is whatever the verdict expression
    evaluates to. *)
Record PredictionResult : Type := mkResult {
  timestamp : string;
  predicted_class : string;
  confidence : Q;
  is_attack : Py.Bool;
  is_benign : bool;
  is_high_threat : bool;
  is_ddos : bool;
  result_confidence_threshold : Q;
  inference_time_ms : Q;
  all_probabilities : list Q
}.

(** Values stored in the dictionary returned by [get_statistics]. *)
Inductive StatValue : Type :=
| VInt (z : Z)
| VFloat (x : Q)
| VInf.

(** The default of the keyword argument [confidence_threshold]. *)
Definition default_confidence_threshold : Q := 8 # 10.

(** [__init__], after the two artifacts have been loaded. *)
Definition init (session scaler : Array2D -> Py.Error + Array2D)
    (feature_names classes : list string) (confidence_threshold : Q)
    : NetworkAttackDetector :=
  {| session := session;
     scaler := scaler;
     feature_names := feature_names;
     classes := classes;
     confidence_threshold := confidence_threshold;
     low_threat_classes :=
       ["VulnerabilityScan"; "Recon-PingSweep"; "BrowserHijacking"];
     total_predictions := 0;
     attack_detections := 0;
     inference_times := [] |}.

(** [d[k] = v] on an insertion-ordered dictionary: an existing key keeps
    its position, a new key goes last. *)
Fixpoint dict_set (k : string) (v : Q) (d : list (string * Q))
    : list (string * Q) :=
  match d with
  | [] => [(k, v)]
  | (k', v') :: r =>
      if String.eqb k' k then (k, v) :: r else (k', v') :: dict_set k v r
  end.

(** [features_dict.get(feature_name, 0.0)] *)
Definition get_feature (features_dict : gmap string Q) (feature_name : string)
    : Q :=
  default 0 (features_dict !! feature_name).

(** The loop of lines 57-59 building [feature_values]. *)
Definition feature_values (self : NetworkAttackDetector)
    (features_dict : gmap string Q) : list (string * Q) :=
  fold_left
    (fun acc feature_name =>
       dict_set feature_name (get_feature features_dict feature_name) acc)
    (feature_names self) [].

(** [pd.DataFrame([feature_values])]: one row, columns in key order. *)
Definition features_df (self : NetworkAttackDetector)
    (features_dict : gmap string Q) : Array2D :=
  [map snd (feature_values self features_dict)].

(** [total_predictions += 1; inference_times.append(inference_time)] *)
Definition count_prediction (self : NetworkAttackDetector) (inference_time : Q)
    : NetworkAttackDetector :=
  {| session := session self;
     scaler := scaler self;
     feature_names := feature_names self;
     classes := classes self;
     confidence_threshold := confidence_threshold self;
     low_threat_classes := low_threat_classes self;
     total_predictions := (total_predictions self + 1)%Z;
     attack_detections := attack_detections self;
     inference_times := inference_times self ++ [inference_time] |}.

(** [attack_detections += 1] *)
Definition count_attack (self : NetworkAttackDetector) : NetworkAttackDetector :=
  {| session := session self;
     scaler := scaler self;
     feature_names := feature_names self;
     classes := classes self;
     confidence_threshold := confidence_threshold self;
     low_threat_classes := low_threat_classes self;
     total_predictions := total_predictions self;
     attack_detections := (attack_detections self + 1)%Z;
     inference_times := inference_times self |}.

(** [[cls for cls in self.classes if 'DDoS' in cls or 'DoS' in cls]] *)
Definition ddos_classes (self : NetworkAttackDetector) : list string :=
  List.filter (fun cls => Py.contains "DDoS" cls || Py.contains "DoS" cls)
    (classes self).

(** [predicted_class.lower() in ['benigntraffic', 'benign', 'normal']] *)
Definition benign_label (predicted_class : string) : bool :=
  Py.in_list (Py.lower predicted_class) ["benigntraffic"; "benign"; "normal"].

(** The verdict of lines 91-112. *)
Definition critical_attack (self : NetworkAttackDetector)
    (predicted_class : string) (confidence : Q) : Py.Bool :=
  if benign_label predicted_class then Py.PyBool false
  else
    let high_confidence_attack :=
      Py.NpBool (Py.gtb confidence (confidence_threshold self)) in
    let is_high_threat :=
      Py.PyBool (negb (Py.in_list predicted_class (low_threat_classes self))) in
    let is_ddos :=
      Py.PyBool (Py.in_list predicted_class (ddos_classes self)) in
    Py.or_
      (Py.or_ (Py.and_ high_confidence_attack is_high_threat)
              (Py.and_ high_confidence_attack is_ddos))
      (Py.NpBool (Py.gtb confidence (9 # 10))).

(** The 'attack_rate' entry: [a / t if t > 0 else 0]; the division of two
    Python integers raises ZeroDivisionError on a zero divisor. *)
Definition int_truediv (a t : Z) : Py.Error + Q :=
  if (t =? 0)%Z then inl (Py.ZeroDivisionError "division by zero")
  else inr (inject_Z a / inject_Z t).

Definition attack_rate (self : NetworkAttackDetector) : Py.Error + StatValue :=
  if (total_predictions self >? 0)%Z
  then match int_truediv (attack_detections self) (total_predictions self) with
       | inl e => inl e
       | inr x => inr (VFloat x)
       end
  else inr (VInt 0).

(** [1000 / m] for a numpy float [m]: a zero divisor gives [inf] (with a
    RuntimeWarning), not an exception. *)
Definition np_rtruediv (a : Z) (m : Q) : StatValue :=
  if Qeq_bool m 0 then VInf else VFloat (inject_Z a / m).

(** [get_statistics] *)
Definition get_statistics (self : NetworkAttackDetector)
    : Py.Error + gmap string StatValue :=
  match inference_times self with
  | [] => inr ∅
  | t :: ts =>
      match attack_rate self with
      | inl e => inl e
      | inr rate =>
          inr (list_to_map
            [ ("total_predictions", VInt (total_predictions self));
              ("attack_detections", VInt (attack_detections self));
              ("attack_rate", rate);
              ("avg_inference_time_ms", VFloat (Np.mean (t :: ts)));
              ("max_inference_time_ms", VFloat (Np.max t ts));
              ("min_inference_time_ms", VFloat (Np.min t ts));
              ("throughput_per_second", np_rtruediv 1000 (Np.mean (t :: ts)));
              ("confidence_threshold", VFloat (confidence_threshold self)) ])
      end
  end.

Section Pipeline.

(** The element-wise cast [astype(np.float32)]. *)
Variable astype_float32 : Q -> Q.

Definition astype (a : Array2D) : Array2D := map (map astype_float32) a.

(** [preprocess_features]: the array handed to the model and the lines
    printed on the way. *)
Definition preprocess_features (self : NetworkAttackDetector)
    (features_dict : gmap string Q) : Array2D * list string :=
  let df := features_df self features_dict in
  match scaler self df with
  | inr features_scaled => (astype features_scaled, [])
  | inl e =>
      (astype df,
       [String.append
          "Aviso: Erro na normalização, usando dados sem normalização: "
          (Py.str e)])
  end.

(** [predict].  [inference_time] and [now] are what the clock gives for
    this call.  The result is the detector after the call, the lines
    printed, and either the exception raised or the dictionary returned.
    Every exception is raised before line 84, so that the detector is
    then unchanged. *)
Definition predict (self : NetworkAttackDetector)
    (features_dict : gmap string Q) (inference_time : Q) (now : string)
    : NetworkAttackDetector * list string * (Py.Error + PredictionResult) :=
  let '(features, printed) := preprocess_features self features_dict in
  match session self features with
  | inl e => (self, printed, inl e)
  | inr probabilities =>
    match probabilities with
    | [] => (self, printed, inl (Py.IndexError "index 0 is out of bounds"))
    | row :: _ =>
      match Np.argmax row with
      | inl e => (self, printed, inl e)
      | inr predicted_class_idx =>
        match classes self !! predicted_class_idx with
        | None => (self, printed, inl (Py.IndexError "list index out of range"))
        | Some predicted_class =>
          match row !! predicted_class_idx with
          | None => (self, printed, inl (Py.IndexError "index out of bounds"))
          | Some confidence =>
            let self1 := count_prediction self inference_time in
            let is_benign := benign_label predicted_class in
            let is_critical_attack :=
              critical_attack self1 predicted_class confidence in
            let self2 :=
              if Py.truthy is_critical_attack then count_attack self1
              else self1 in
            (self2, printed,
             inr {| timestamp := now;
                    predicted_class := predicted_class;
                    confidence := confidence;
                    is_attack := is_critical_attack;
                    is_benign := is_benign;
                    is_high_threat :=
                      if negb is_benign
                      then negb (Py.in_list predicted_class
                                   (low_threat_classes self2))
                      else false;
                    is_ddos :=
                      if negb is_benign
                      then Py.in_list predicted_class (ddos_classes self2)
                      else false;
                    result_confidence_threshold := confidence_threshold self2;
                    inference_time_ms := inference_time;
                    all_probabilities := row |})
          end
        end
      end
    end
  end.

(* ------------------------------------------------------------------- *)
(* class RealTimeMonitor                                                 *)
(* ------------------------------------------------------------------- *)

(** One line of the alert log: the JSON object encoding a result. *)
Inductive JsonLine : Type :=
| JsonObject (result : PredictionResult).

(** The attributes of [self], with the contents of the files they name.
    [log_file] is the contents of the alert log.  [result_file] is [None]
    when no path is configured, else the contents of the report file.
    [stdout] collects what is printed. *)
Record RealTimeMonitor : Type := mkMonitor {
  detector : NetworkAttackDetector;
  log_file : list JsonLine;
  result_file : option (list string);
  stdout : list string;
  data_queue : list (gmap string Q);
  running : bool;
  results : list PredictionResult
}.

(** The format specification [:.3f]. *)
Variable format_3f : Q -> string.

(** [json.dumps(result)]: every value of the dictionary is a [str], a
    [float], a [list] of [float] or a builtin [bool], except that
    'is_attack' may hold a [numpy.bool_], which the encoder rejects. *)
Definition json_dumps (result : PredictionResult) : Py.Error + JsonLine :=
  match is_attack result with
  | Py.PyBool _ => inr (JsonObject result)
  | Py.NpBool _ =>
      inl (Py.TypeError "Object of type bool_ is not JSON serializable")
  end.

(** [log_detection]: the line is built before it is written. *)
Definition log_detection (self : RealTimeMonitor) (result : PredictionResult)
    : Py.Error + RealTimeMonitor :=
  match json_dumps result with
  | inl e => inl e
  | inr line =>
      inr {| detector := detector self;
             log_file := log_file self ++ [line];
             result_file := result_file self;
             stdout := stdout self;
             data_queue := data_queue self;
             running := running self;
             results := results self |}
  end.

(** [save_result]: the report stream is the report file when one is
    configured, else the standard output. *)
Definition save_result (self : RealTimeMonitor) (message : string)
    : RealTimeMonitor :=
  match result_file self with
  | Some lines =>
      {| detector := detector self;
         log_file := log_file self;
         result_file := Some (lines ++ [message]);
         stdout := stdout self;
         data_queue := data_queue self;
         running := running self;
         results := results self |}
  | None =>
      {| detector := detector self;
         log_file := log_file self;
         result_file := None;
         stdout := stdout self ++ [message];
         data_queue := data_queue self;
         running := running self;
         results := results self |}
  end.

(** The four notices of the worker. *)
Inductive Severity : Type := CRITICAL | NORMAL | SUSPICIOUS | LOW_RISK.

Definition severity_text (s : Severity) : string :=
  match s with
  | CRITICAL => "🚨 ATAQUE CRÍTICO"
  | NORMAL => "✅ TRÁFEGO NORMAL"
  | SUSPICIOUS => "⚠️ ATIVIDADE SUSPEITA"
  | LOW_RISK => "🔍 BAIXO RISCO"
  end.

(** [f"<text>: {result['predicted_class']} (Confiança: {result['confidence']:.3f})"] *)
Definition notice (s : Severity) (result : PredictionResult) : string :=
  String.append (severity_text s)
    (String.append ": "
       (String.append (predicted_class result)
          (String.append " (Confiança: "
             (String.append (format_3f (confidence result)) ")")))).

(** [f"Erro no processamento: {e}"] *)
Definition error_msg (e : Py.Error) : string :=
  String.append "Erro no processamento: " (Py.str e).

(** The state after [self.detector.predict] has run and printed. *)
Definition after_predict (self : RealTimeMonitor)
    (d : NetworkAttackDetector) (printed : list string) : RealTimeMonitor :=
  {| detector := d;
     log_file := log_file self;
     result_file := result_file self;
     stdout := stdout self ++ printed;
     data_queue := data_queue self;
     running := running self;
     results := results self |}.

(** [self.results.append(result)] *)
Definition append_result (self : RealTimeMonitor) (result : PredictionResult)
    : RealTimeMonitor :=
  {| detector := detector self;
     log_file := log_file self;
     result_file := result_file self;
     stdout := stdout self;
     data_queue := data_queue self;
     running := running self;
     results := results self ++ [result] |}.

(** The body of the [try] of [process_data_stream] for one item taken
    from the queue, with both [except] clauses. *)
Definition process_item (self : RealTimeMonitor)
    (features_dict : gmap string Q) (inference_time : Q) (now : string)
    : RealTimeMonitor :=
  let '(d, printed, outcome) :=
    predict (detector self) features_dict inference_time now in
  let self0 := after_predict self d printed in
  match outcome with
  | inl e => save_result self0 (error_msg e)
  | inr result =>
      let self1 := append_result self0 result in
      if Py.truthy (is_attack result) then
        let self2 := save_result self1 (notice CRITICAL result) in
        match log_detection self2 result with
        | inl e => save_result self2 (error_msg e)
        | inr self3 => self3
        end
      else if is_benign result then
        save_result self1 (notice NORMAL result)
      else if Py.geb (confidence result)
                (confidence_threshold (detector self1)) then
        save_result self1 (notice SUSPICIOUS result)
      else
        save_result self1 (notice LOW_RISK result)
  end.

(** [self.data_queue.get(timeout=1)]: the head of the queue, if any. *)
Definition queue_get (self : RealTimeMonitor)
    : option (gmap string Q * RealTimeMonitor) :=
  match data_queue self with
  | [] => None
  | features_dict :: rest =>
      Some (features_dict,
            {| detector := detector self;
               log_file := log_file self;
               result_file := result_file self;
               stdout := stdout self;
               data_queue := rest;
               running := running self;
               results := results self |})
  end.

(** One turn of the [while] loop; [queue.Empty] leads to [continue]. *)
Definition iteration (self : RealTimeMonitor) (inference_time : Q)
    (now : string) : RealTimeMonitor :=
  match queue_get self with
  | None => self
  | Some (features_dict, self') =>
      process_item self' features_dict inference_time now
  end.

(** [process_data_stream] along a list of clock readings, one per turn. *)
Fixpoint process_data_stream (self : RealTimeMonitor)
    (clock : list (Q * string)) : RealTimeMonitor :=
  match clock with
  | [] => self
  | (inference_time, now) :: clock' =>
      if running self
      then process_data_stream (iteration self inference_time now) clock'
      else self
  end.

(** The operations of a detector that a caller can invoke. *)
Inductive DetectorOp : Type :=
| OpPreprocess (features_dict : gmap string Q)
| OpPredict (features_dict : gmap string Q) (inference_time : Q) (now : string)
| OpStatistics.

(** The detector after an operation. *)
Definition run_op (self : NetworkAttackDetector) (op : DetectorOp)
    : NetworkAttackDetector :=
  match op with
  | OpPreprocess _ => self
  | OpPredict features_dict inference_time now =>
      (predict self features_dict inference_time now).1.1
  | OpStatistics => self
  end.

Definition run_ops (self : NetworkAttackDetector) (ops : list DetectorOp)
    : NetworkAttackDetector :=
  fold_left run_op ops self.

End Pipeline.

(* --------------------------------------------------------------------- *)
(* Concrete detectors used in examples                                   *)
(* --------------------------------------------------------------------- *)

Module Demo.

(** A model over three features that always answers with the given
    probability row; the scaler is the identity. *)
Definition detector_with (row : list Q) : NetworkAttackDetector :=
  init (fun _ => inr [row]) (fun a => inr a)
    ["flow_duration"; "Header_Length"; "Rate"]
    ["BenignTraffic"; "DDoS-ICMP_Flood"; "Recon-PingSweep"; "VulnerabilityScan"]
    default_confidence_threshold.

(** The same model behind a scaler that was fitted on other columns. *)
Definition detector_bad_scaler (row : list Q) : NetworkAttackDetector :=
  init (fun _ => inr [row])
    (fun _ => inl (Py.ValueError "X has 3 features, but StandardScaler is expecting 46 features as input."))
    ["flow_duration"; "Header_Length"; "Rate"]
    ["BenignTraffic"; "DDoS-ICMP_Flood"; "Recon-PingSweep"; "VulnerabilityScan"]
    default_confidence_threshold.

Definition sample : gmap string Q :=
  <["flow_duration" := 3 # 2]> (<["Rate" := 7]> ∅).

(** The cast and the number format are kept symbolic elsewhere; examples
    run with the identity and with a fixed text. *)
Definition cast (x : Q) : Q := x.
Definition fmt (x : Q) : string := "0.000".

Definition monitor_with (row : list Q) : RealTimeMonitor :=
  {| detector := detector_with row;
     log_file := [];
     result_file := Some [];
     stdout := [];
     data_queue := [];
     running := true;
     results := [] |}.

End Demo.

(* --------------------------------------------------------------------- *)
(* RealTimeMonitor: the producer side                                    *)
(* --------------------------------------------------------------------- *)

(** [start_monitoring]: sets the flag; the worker thread it spawns runs
    [process_data_stream]. *)
Definition start_monitoring (self : RealTimeMonitor) : RealTimeMonitor :=
  {| detector := detector self;
     log_file := log_file self;
     result_file := result_file self;
     stdout := stdout self ++ ["Monitoramento iniciado..."];
     data_queue := data_queue self;
     running := true;
     results := results self |}.

(** [stop_monitoring] *)
Definition stop_monitoring (self : RealTimeMonitor) : RealTimeMonitor :=
  {| detector := detector self;
     log_file := log_file self;
     result_file := result_file self;
     stdout := stdout self;
     data_queue := data_queue self;
     running := false;
     results := results self |}.

(** [add_data]: [self.data_queue.put(features_dict)] on an unbounded queue. *)
Definition add_data (self : RealTimeMonitor) (features_dict : gmap string Q)
    : RealTimeMonitor :=
  {| detector := detector self;
     log_file := log_file self;
     result_file := result_file self;
     stdout := stdout self;
     data_queue := data_queue self ++ [features_dict];
     running := running self;
     results := results self |}.

(* --------------------------------------------------------------------- *)
(* RealTimeMonitor.save_all_results                                      *)
(* --------------------------------------------------------------------- *)

(** [d.get(k)] and [d[k] = v] on the insertion-ordered dictionary
    [attack_types], from labels to counts. *)
Fixpoint count_get (k : string) (d : list (string * Z)) : option Z :=
  match d with
  | [] => None
  | (k', v) :: r => if String.eqb k' k then Some v else count_get k r
  end.

Fixpoint count_set (k : string) (v : Z) (d : list (string * Z))
    : list (string * Z) :=
  match d with
  | [] => [(k, v)]
  | (k', v') :: r =>
      if String.eqb k' k then (k, v) :: r else (k', v') :: count_set k v r
  end.

(** The loop of lines 189-192. *)
Definition attack_types (attacks : list PredictionResult) : list (string * Z) :=
  fold_left
    (fun acc attack =>
       let attack_type := predicted_class attack in
       count_set attack_type (default 0%Z (count_get attack_type acc) + 1)%Z acc)
    attacks [].

(** [a < b] on (label, count) tuples: labels first (strings compare by
    code point, which is the byte order of their UTF-8 encoding), then
    counts. *)
Definition item_ltb (a b : string * Z) : bool :=
  match String.compare a.1 b.1 with
  | Lt => true
  | Eq => (a.2 <? b.2)%Z
  | Gt => false
  end.

(** [sorted(...)]: a stable sort by [<], here by insertion. *)
Fixpoint insert_item (x : string * Z) (l : list (string * Z))
    : list (string * Z) :=
  match l with
  | [] => [x]
  | y :: r => if item_ltb x y then x :: y :: r else y :: insert_item x r
  end.

Definition sorted_items (l : list (string * Z)) : list (string * Z) :=
  fold_left (fun acc x => insert_item x acc) l [].

(** [np.median]: the middle of the sorted values, or the mean of the two
    middle ones. *)
Fixpoint insert_value (x : Q) (l : list Q) : list Q :=
  match l with
  | [] => [x]
  | y :: r => if Py.gtb y x then x :: y :: r else y :: insert_value x r
  end.

Definition np_median (a : list Q) : Q :=
  let s := fold_left (fun acc x => insert_value x acc) a [] in
  let n := length s in
  if Nat.even n
  then (nth (n / 2 - 1) s 0 + nth (n / 2) s 0) / 2
  else nth (n / 2) s 0.

(** The builtins [min] and [max] on a list: ValueError when it is empty. *)
Definition py_min (a : list Q) : Py.Error + Q :=
  match a with
  | [] => inl (Py.ValueError "min() arg is an empty sequence")
  | x :: r => inr (Np.min x r)
  end.

Definition py_max (a : list Q) : Py.Error + Q :=
  match a with
  | [] => inl (Py.ValueError "max() arg is an empty sequence")
  | x :: r => inr (Np.max x r)
  end.

(** [str(b)] for a builtin boolean *)
Definition str_bool (b : bool) : string := if b then "True" else "False".

(** The three comprehensions of lines 178-180; [x < thr] is [thr > x]. *)
Definition attacks_of (results : list PredictionResult) : list PredictionResult :=
  List.filter (fun r => Py.truthy (is_attack r)) results.

Definition low_confidence_of (threshold : Q) (results : list PredictionResult)
    : list PredictionResult :=
  List.filter (fun r => Py.gtb threshold (confidence r)) results.

Definition high_confidence_of (threshold : Q) (results : list PredictionResult)
    : list PredictionResult :=
  List.filter (fun r => Py.geb (confidence r) threshold) results.

(** The status of lines 209-216. *)
Definition sample_status (threshold : Q) (result : PredictionResult) : Severity :=
  if Py.truthy (is_attack result) then CRITICAL
  else if is_benign result then NORMAL
  else if Py.geb (confidence result) threshold then SUSPICIOUS
  else LOW_RISK.

Section ReportWriter.

(** The format specifications [:.2f] and [:.3f], and [str] of a float. *)
Variable format_2f : Q -> string.
Variable format_3f : Q -> string.
Variable str_float : Q -> string.

(** The writes of lines 218-226 for the sample numbered [i]; a line is
    what one [f.write] puts before a newline, and a second newline is an
    empty line. *)
Definition detail_lines (threshold : Q) (i : nat) (result : PredictionResult)
    : list string :=
  [ "Amostra " +:+ pretty i +:+ ": "
      +:+ severity_text (sample_status threshold result);
    "  Classe: " +:+ predicted_class result;
    "  Confiança: " +:+ format_3f (confidence result);
    "  É tráfego benigno: " +:+ str_bool (is_benign result);
    "  É DDoS: " +:+ str_bool (is_ddos result);
    "  Alta ameaça: " +:+ str_bool (is_high_threat result);
    "  Tempo de inferência: " +:+ format_2f (inference_time_ms result) +:+ " ms";
    "  Timestamp: " +:+ timestamp result;
    "" ].

(** The writes of lines 188-197. *)
Definition attack_type_lines (attacks : list PredictionResult) : list string :=
  match attacks with
  | [] => []
  | _ :: _ =>
      ["=== TIPOS DE ATAQUES CRÍTICOS DETECTADOS ==="]
      ++ map (fun item => item.1 +:+ ": " +:+ pretty item.2 +:+ " ocorrências")
           (sorted_items (attack_types attacks))
      ++ [""]
  end.

(** Everything written between the opening and the closing of the file.
    [now] is [datetime.now().strftime(...)]. *)
Definition report_lines (self : RealTimeMonitor) (now : string)
    : Py.Error + list string :=
  let threshold := confidence_threshold (detector self) in
  let attacks := attacks_of (results self) in
  let low_confidence := low_confidence_of threshold (results self) in
  let high_confidence := high_confidence_of threshold (results self) in
  match int_truediv (Z.of_nat (length attacks))
          (Z.of_nat (length (results self))) with
  | inl e => inl e
  | inr rate =>
    let confidence_levels := map confidence (results self) in
    match py_min confidence_levels with
    | inl e => inl e
    | inr lowest =>
      match py_max confidence_levels with
      | inl e => inl e
      | inr highest =>
        inr
          ([ "=== RESULTADOS DA ANÁLISE ===";
             "Data/Hora: " +:+ now;
             "Total de amostras processadas: " +:+ pretty (length (results self));
             "Threshold de confiança: " +:+ str_float threshold;
             "";
             "Ataques críticos detectados: " +:+ pretty (length attacks);
             "Taxa de ataques críticos: " +:+ format_2f (rate * 100) +:+ "%";
             "Atividade normal/baixo risco: "
               +:+ pretty (Z.of_nat (length (results self))
                           - Z.of_nat (length attacks))%Z;
             "Predições baixa confiança: " +:+ pretty (length low_confidence);
             "Predições alta confiança: " +:+ pretty (length high_confidence);
             "" ]
           ++ attack_type_lines attacks
           ++ [ "=== DISTRIBUIÇÃO DE CONFIANÇA ===";
                "Confiança média: " +:+ format_3f (Np.mean confidence_levels);
                "Confiança mediana: " +:+ format_3f (np_median confidence_levels);
                "Confiança mínima: " +:+ format_3f lowest;
                "Confiança máxima: " +:+ format_3f highest;
                "" ]
           ++ ["=== DETALHES DAS DETECÇÕES ==="]
           ++ concat (imap (fun i result => detail_lines threshold (S i) result)
                        (results self)))
      end
    end
  end.

(** [save_all_results]: opened with mode 'w', the file holds what this
    call writes and nothing else. *)
Definition save_all_results (self : RealTimeMonitor) (now : string)
    : Py.Error + RealTimeMonitor :=
  match result_file self, results self with
  | Some _, _ :: _ =>
      match report_lines self now with
      | inl e => inl e
      | inr lines =>
          inr {| detector := detector self;
                 log_file := log_file self;
                 result_file := Some lines;
                 stdout := stdout self;
                 data_queue := data_queue self;
                 running := running self;
                 results := results self |}
      end
  | _, _ => inr self
  end.

End ReportWriter.

(* --------------------------------------------------------------------- *)
(* Comparing the float32 confidence with a Python float                  *)
(* --------------------------------------------------------------------- *)

(** In [confidence > self.confidence_threshold] and [confidence > 0.9] the
    left operand is a numpy float32 scalar and the right one a Python
    float.  numpy converts the right operand before it compares: to
    float64 up to numpy 1.x, which keeps its value, and to float32 since
    numpy 2.0 (NEP 50), which rounds it.  [critical_attack] and [predict]
    above compare the values as they are (the float64 comparison); the
    definitions below take the conversion of the Python float as the
    parameter [weak_float]. *)
Definition np_gtb (weak_float : Q -> Q) (x y : Q) : bool :=
  Py.gtb x (weak_float y).

(** The quotient [n / d] rounded to the nearest integer, ties to even,
    for [d > 0]. *)
Definition round_half_even (n d : Z) : Z :=
  let q := (n / d)%Z in
  let r := (n mod d)%Z in
  match (2 * r ?= d)%Z with
  | Lt => q
  | Gt => (q + 1)%Z
  | Eq => if Z.even q then q else (q + 1)%Z
  end.

Definition round_nearest_even (y : Q) : Z :=
  round_half_even (Qnum y) (QDen y).

(** The exponent [e] with [2^e <= x < 2^(e+1)], for [x > 0]: the
    difference of the bit lengths of numerator and denominator, or one
    less. *)
Definition binary_exponent (x : Q) : Z :=
  let e0 := (Z.log2 (Qnum x) - Z.log2 (QDen x))%Z in
  if Py.gtb (2 ^ e0) x then (e0 - 1)%Z else e0.

(** Rounding of [x > 0] to the nearest binary32 value, ties to even: 24
    significant bits, least exponent -126 (below it the spacing stays
    2^-149). *)
Definition binary32_magnitude (x : Q) : Q :=
  let k := (Z.max (binary_exponent x) (-126) - 23)%Z in
  inject_Z (round_nearest_even (x / 2 ^ k)) * 2 ^ k.

(** Rounding to binary32.  A value beyond the binary32 range rounds to a
    rational of magnitude at least 2^128, which compares with every
    binary32 value as the infinity that numpy produces. *)
Definition binary32_round (x : Q) : Q :=
  match Qnum x with
  | Z0 => 0
  | Zpos _ => binary32_magnitude x
  | Zneg _ => - binary32_magnitude (- x)
  end.

(** The verdict of lines 91-112 with numpy's comparisons. *)
Definition critical_attack_np (weak_float : Q -> Q)
    (self : NetworkAttackDetector) (predicted_class : string) (confidence : Q)
    : Py.Bool :=
  if benign_label predicted_class then Py.PyBool false
  else
    let high_confidence_attack :=
      Py.NpBool (np_gtb weak_float confidence (confidence_threshold self)) in
    let is_high_threat :=
      Py.PyBool (negb (Py.in_list predicted_class (low_threat_classes self))) in
    let is_ddos :=
      Py.PyBool (Py.in_list predicted_class (ddos_classes self)) in
    Py.or_
      (Py.or_ (Py.and_ high_confidence_attack is_high_threat)
              (Py.and_ high_confidence_attack is_ddos))
      (Py.NpBool (np_gtb weak_float confidence (9 # 10))).

(** [predict] with numpy's comparisons; everything else as in [predict]. *)
Definition predict_np (weak_float astype_float32 : Q -> Q)
    (self : NetworkAttackDetector)
    (features_dict : gmap string Q) (inference_time : Q) (now : string)
    : NetworkAttackDetector * list string * (Py.Error + PredictionResult) :=
  let '(features, printed) :=
    preprocess_features astype_float32 self features_dict in
  match session self features with
  | inl e => (self, printed, inl e)
  | inr probabilities =>
    match probabilities with
    | [] => (self, printed, inl (Py.IndexError "index 0 is out of bounds"))
    | row :: _ =>
      match Np.argmax row with
      | inl e => (self, printed, inl e)
      | inr predicted_class_idx =>
        match classes self !! predicted_class_idx with
        | None => (self, printed, inl (Py.IndexError "list index out of range"))
        | Some predicted_class =>
          match row !! predicted_class_idx with
          | None => (self, printed, inl (Py.IndexError "index out of bounds"))
          | Some confidence =>
            let self1 := count_prediction self inference_time in
            let is_benign := benign_label predicted_class in
            let is_critical_attack :=
              critical_attack_np weak_float self1 predicted_class confidence in
            let self2 :=
              if Py.truthy is_critical_attack then count_attack self1
              else self1 in
            (self2, printed,
             inr {| timestamp := now;
                    predicted_class := predicted_class;
                    confidence := confidence;
                    is_attack := is_critical_attack;
                    is_benign := is_benign;
                    is_high_threat :=
                      if negb is_benign
                      then negb (Py.in_list predicted_class
                                   (low_threat_classes self2))
                      else false;
                    is_ddos :=
                      if negb is_benign
                      then Py.in_list predicted_class (ddos_classes self2)
                      else false;
                    result_confidence_threshold := confidence_threshold self2;
                    inference_time_ms := inference_time;
                    all_probabilities := row |})
          end
        end
      end
    end
  end.

(* --------------------------------------------------------------------- *)
(* Predicates used in the statements                                     *)
(* --------------------------------------------------------------------- *)

(** Invariant of the scan of [np.argmax]: after the prefix [pre] has been
    read, [best] is the first position of its maximum [m]. *)
Definition scanned (pre : list Q) (best : nat) (m : Q) : Prop :=
  pre !! best = Some m /\
  (forall j p, pre !! j = Some p -> p <= m) /\
  (forall j p, (j < best)%nat -> pre !! j = Some p -> p < m).

(** The counters of [d'] extend those of [d]. *)
Definition grows (d d' : NetworkAttackDetector) : Prop :=
  (total_predictions d <= total_predictions d')%Z /\
  (attack_detections d <= attack_detections d')%Z /\
  inference_times d `prefix_of` inference_times d'.

(** The lines of the report stream. *)
Definition report (self : RealTimeMonitor) : list string :=
  match result_file self with
  | Some lines => lines
  | None => stdout self
  end.

(** The results of calling [predict] on each item in turn, one clock
    reading per call, the detector being passed from call to call; a call
    that raises contributes no result. *)
Fixpoint predict_each (astype_float32 : Q -> Q) (d : NetworkAttackDetector)
    (items : list (gmap string Q)) (clock : list (Q * string))
    : NetworkAttackDetector * list PredictionResult :=
  match items, clock with
  | features_dict :: items', (inference_time, now) :: clock' =>
      let '(d', _, outcome) :=
        predict astype_float32 d features_dict inference_time now in
      let '(d'', rs) := predict_each astype_float32 d' items' clock' in
      (d'', match outcome with inr r => r :: rs | inl _ => rs end)
  | _, _ => (d, [])
  end.

(** Every line of the alert log encodes a collected result whose verdict
    is the builtin [True]. *)
Definition log_sound (self : RealTimeMonitor) : Prop :=
  forall line, line ∈ log_file self ->
    exists r, line = JsonObject r /\ r ∈ results self /\
              is_attack r = Py.PyBool true.

(** The counters of a detector that has counted from zero. *)
Definition counters_ok (d : NetworkAttackDetector) : Prop :=
  total_predictions d = Z.of_nat (length (inference_times d)) /\
  (0 <= attack_detections d <= total_predictions d)%Z.


(** The part of [results] and of the counters added by a run. *)
Definition run_delta (self self' : RealTimeMonitor)
    (new : list PredictionResult) : Prop :=
  results self' = results self ++ new /\
  total_predictions (detector self')
  = (total_predictions (detector self) + Z.of_nat (length new))%Z /\
  attack_detections (detector self')
  = (attack_detections (detector self)
     + Z.of_nat (length (attacks_of new)))%Z /\
  (length (log_file self')
   <= length (log_file self) + length (attacks_of new))%nat.

(* ===================================================================== *)
(* Properties                                                            *)
(* ===================================================================== *)

Section Basics.

Example lower_benign : Py.lower "BenignTraffic" = "benigntraffic".
Proof. reflexivity. Qed.

Example contains_dos : Py.contains "DoS" "DDoS-ICMP_Flood" = true.
Proof. reflexivity. Qed.

Example contains_case_sensitive : Py.contains "DoS" "DNS_Spoofing" = false.
Proof. reflexivity. Qed.

Example argmax_tie : Np.argmax [1 # 4; 3 # 8; 3 # 8] = inr 1%nat.
Proof. reflexivity. Qed.

Lemma gtb_lt (x y : Q) : Py.gtb x y = true <-> y < x.
Proof. unfold Py.gtb, Qlt. apply Z.ltb_lt. Qed.

Lemma gtb_false_le (x y : Q) : Py.gtb x y = false <-> x <= y.
Proof. unfold Py.gtb, Qle. apply Z.ltb_ge. Qed.

Lemma geb_le (x y : Q) : Py.geb x y = true <-> y <= x.
Proof. unfold Py.geb, Qle. apply Z.leb_le. Qed.

Lemma in_list_elem_of (x : string) (l : list string) :
  Py.in_list x l = true <-> x ∈ l.
Proof.
  unfold Py.in_list. rewrite existsb_exists. split.
  - intros (y & Hy & Heq). apply String.eqb_eq in Heq. subst y.
    by apply list_elem_of_In.
  - intros Hin. exists x. split; [by apply list_elem_of_In | apply String.eqb_refl].
Qed.

Lemma in_list_false (x : string) (l : list string) :
  Py.in_list x l = false <-> x ∉ l.
Proof.
  rewrite <- in_list_elem_of. destruct (Py.in_list x l); split; done.
Qed.

(** Membership in the comprehension of [ddos_classes] is the substring
    test, for a label of [classes]. *)
Lemma in_ddos_classes (self : NetworkAttackDetector) (c : string) :
  c ∈ classes self ->
  Py.in_list c (ddos_classes self)
  = Py.contains "DDoS" c || Py.contains "DoS" c.
Proof.
  intros Hc. unfold ddos_classes.
  destruct (Py.contains "DDoS" c || Py.contains "DoS" c) eqn:E.
  - apply in_list_elem_of, list_elem_of_In, filter_In.
    split; [by apply list_elem_of_In | done].
  - apply in_list_false. intros Hin.
    apply list_elem_of_In, filter_In in Hin. destruct Hin as [_ Hin]. congruence.
Qed.

End Basics.

Section Argmax.

Lemma scanned_keep (pre : list Q) (best : nat) (m x : Q) :
  scanned pre best m -> x <= m -> scanned (pre ++ [x]) best m.
Proof.
  intros (Hb & Hmax & Hfirst) Hx. repeat split.
  - rewrite lookup_app_l; [done | by eapply lookup_lt_Some].
  - intros j p Hj. apply lookup_app_Some in Hj as [Hj | [_ Hj]]; [by eapply Hmax |].
    apply list_lookup_singleton_Some in Hj as [_ <-]. done.
  - intros j p Hlt Hj. apply lookup_app_Some in Hj as [Hj | [Hge _]].
    + by eapply Hfirst.
    + apply lookup_lt_Some in Hb. lia.
Qed.

Lemma scanned_replace (pre : list Q) (best : nat) (m x : Q) :
  scanned pre best m -> m < x -> scanned (pre ++ [x]) (length pre) x.
Proof.
  intros (Hb & Hmax & Hfirst) Hx. repeat split.
  - by rewrite lookup_app_r, Nat.sub_diag.
  - intros j p Hj. apply lookup_app_Some in Hj as [Hj | [_ Hj]].
    + apply Qle_trans with m; [by eapply Hmax | by apply Qlt_le_weak].
    + apply list_lookup_singleton_Some in Hj as [_ <-]. apply Qle_refl.
  - intros j p Hlt Hj. rewrite lookup_app_l in Hj by done.
    apply Qle_lt_trans with m; [by eapply Hmax | done].
Qed.

Lemma argmax_from_scanned (l pre : list Q) (best : nat) (m : Q) :
  scanned pre best m ->
  exists c, scanned (pre ++ l) (Np.argmax_from best m (length pre) l) c.
Proof.
  revert pre best m. induction l as [| x r IH]; intros pre best m Hs.
  - exists m. by rewrite app_nil_r.
  - cbn [Np.argmax_from]. destruct (Py.gtb x m) eqn:E.
    + apply gtb_lt in E. pose proof (scanned_replace pre best m x Hs E) as Hs'.
      destruct (IH _ _ _ Hs') as (c & Hc). exists c.
      rewrite length_app, Nat.add_1_r, <- app_assoc in Hc. exact Hc.
    + apply gtb_false_le in E. pose proof (scanned_keep pre best m x Hs E) as Hs'.
      destruct (IH _ _ _ Hs') as (c & Hc). exists c.
      rewrite length_app, Nat.add_1_r, <- app_assoc in Hc. exact Hc.
Qed.

(** [np.argmax] returns the first position of the maximum. *)
Lemma argmax_first_max (a : list Q) (idx : nat) :
  Np.argmax a = inr idx -> exists c, scanned a idx c.
Proof.
  destruct a as [| x r]; [discriminate |]. cbn [Np.argmax]. intros [= <-].
  apply (argmax_from_scanned r [x] 0%nat x). repeat split.
  - intros [| j] p Hj; [| done]. injection Hj as <-. apply Qle_refl.
  - intros j p Hlt. lia.
Qed.

Lemma argmax_nonempty (a : list Q) :
  a <> [] -> exists idx, Np.argmax a = inr idx.
Proof. destruct a; [done | eauto]. Qed.

End Argmax.

Section Detector.

Variable astype_float32 : Q -> Q.

Abbreviation predict' := (predict astype_float32).
Abbreviation preprocess' := (preprocess_features astype_float32).

(** What a completed call to [predict] has gone through. *)
Lemma predict_completed self features_dict inference_time now self' printed r :
  predict' self features_dict inference_time now = (self', printed, inr r) ->
  exists rest row idx,
    session self (preprocess' self features_dict).1 = inr (row :: rest) /\
    printed = (preprocess' self features_dict).2 /\
    Np.argmax row = inr idx /\
    classes self !! idx = Some (predicted_class r) /\
    row !! idx = Some (confidence r) /\
    all_probabilities r = row /\
    is_attack r = critical_attack self (predicted_class r) (confidence r) /\
    self' = (if Py.truthy (is_attack r)
             then count_attack (count_prediction self inference_time)
             else count_prediction self inference_time) /\
    is_benign r = benign_label (predicted_class r) /\
    is_high_threat r =
      (if negb (benign_label (predicted_class r))
       then negb (Py.in_list (predicted_class r) (low_threat_classes self))
       else false) /\
    is_ddos r =
      (if negb (benign_label (predicted_class r))
       then Py.in_list (predicted_class r) (ddos_classes self)
       else false) /\
    result_confidence_threshold r = confidence_threshold self /\
    inference_time_ms r = inference_time /\
    timestamp r = now.
Proof.
  unfold predict. destruct (preprocess' self features_dict) as [features out].
  cbn [fst snd].
  destruct (session self features) as [e | [| row rest]]; try discriminate.
  destruct (Np.argmax row) as [e | idx] eqn:Hidx; try discriminate.
  destruct (classes self !! idx) as [c |] eqn:Hc; try discriminate.
  destruct (row !! idx) as [conf |] eqn:Hconf; try discriminate.
  intros [= <- <- <-]. exists rest, row, idx. cbn.
  repeat split; try done;
    by destruct (Py.truthy (critical_attack _ c conf)).
Qed.

(** An exception leaves the detector as it was. *)
Lemma predict_raised self features_dict inference_time now self' printed e :
  predict' self features_dict inference_time now = (self', printed, inl e) ->
  self' = self.
Proof.
  unfold predict. destruct (preprocess' self features_dict) as [features out].
  destruct (session self features) as [e' | [| row rest]]; try congruence.
  destruct (Np.argmax row) as [e' | idx]; try congruence.
  destruct (classes self !! idx) as [c |]; try congruence.
  destruct (row !! idx) as [conf |]; congruence.
Qed.

Lemma predicted_class_in_classes self features_dict inference_time now
    self' printed r :
  predict' self features_dict inference_time now = (self', printed, inr r) ->
  predicted_class r ∈ classes self.
Proof.
  intros H. apply predict_completed in H as (rest & row & idx & _ & _ & _ & Hc & _).
  by eapply list_elem_of_lookup_2.
Qed.

(** The truth value of the verdict for a label that is not benign. *)
Lemma critical_attack_truthy self c conf :
  benign_label c = false ->
  Py.truthy (critical_attack self c conf)
  = Py.gtb conf (confidence_threshold self)
      && negb (Py.in_list c (low_threat_classes self))
    || Py.gtb conf (confidence_threshold self)
      && Py.in_list c (ddos_classes self)
    || Py.gtb conf (9 # 10).
Proof.
  intros Hb. unfold critical_attack. rewrite Hb.
  destruct (Py.gtb conf (confidence_threshold self));
  destruct (Py.in_list c (low_threat_classes self));
  destruct (Py.in_list c (ddos_classes self));
  destruct (Py.gtb conf (9 # 10)); reflexivity.
Qed.

End Detector.

Section Binary32.

Lemma round_half_even_bounds n d :
  (0 < d)%Z ->
  let z := round_half_even n d in
  (2 * n - d <= 2 * (z * d) <= 2 * n + d)%Z /\
  ((2 * (z * d) = 2 * n + d)%Z -> Z.even z = true) /\
  ((2 * (z * d) = 2 * n - d)%Z -> Z.even z = true).
Proof.
  intros Hd. unfold round_half_even. cbv zeta.
  pose proof (Z.div_mod n d ltac:(lia)) as Hdm.
  pose proof (Z.mod_pos_bound n d Hd) as Hr.
  set (q := (n / d)%Z) in *. set (r := (n mod d)%Z) in *.
  destruct (Z.compare_spec (2 * r) d) as [He | Hl | Hg].
  - destruct (Z.even q) eqn:Ev.
    + repeat split; intros; try assumption; nia.
    + assert (Z.even (q + 1) = true).
      { rewrite Z.even_add, Ev. reflexivity. }
      repeat split; intros; try assumption; nia.
  - repeat split; intros; nia.
  - repeat split; intros; nia.
Qed.

Lemma round_nearest_even_mono (a b : Q) :
  a <= b -> (round_nearest_even a <= round_nearest_even b)%Z.
Proof.
  unfold Qle, round_nearest_even. intros Hab.
  destruct a as [n1 d1], b as [n2 d2]. cbn [Qnum Qden] in *.
  assert (H1 : (0 < Zpos d1)%Z) by lia. assert (H2 : (0 < Zpos d2)%Z) by lia.
  destruct (round_half_even_bounds n1 (Zpos d1) H1) as ((_ & U1) & T1 & _).
  destruct (round_half_even_bounds n2 (Zpos d2) H2) as ((L2 & _) & _ & T2).
  set (z1 := round_half_even n1 (Zpos d1)) in *.
  set (z2 := round_half_even n2 (Zpos d2)) in *.
  set (D1 := Zpos d1) in *. set (D2 := Zpos d2) in *.
  destruct (Z_le_gt_dec z1 z2) as [Hle | Hgt]; [exact Hle | exfalso].
  (* 2 z1 D1 D2 <= 2 n1 D2 + D1 D2 <= 2 n2 D1 + D1 D2 <= 2 z2 D1 D2 + 2 D1 D2 *)
  assert (A : (2 * (z1 * D1) * D2 <= (2 * n1 + D1) * D2)%Z) by nia.
  assert (B : ((2 * n2 - D2) * D1 <= 2 * (z2 * D2) * D1)%Z) by nia.
  assert (C : (z1 = z2 + 1)%Z) by nia.
  assert (E1 : (2 * (z1 * D1) = 2 * n1 + D1)%Z) by nia.
  assert (E2 : (2 * (z2 * D2) = 2 * n2 - D2)%Z) by nia.
  specialize (T1 E1). specialize (T2 E2).
  rewrite C, Z.even_add, T2 in T1. discriminate.
Qed.

Lemma round_nearest_even_Z (a : Q) (z : Z) :
  a == inject_Z z -> round_nearest_even a = z.
Proof.
  intros Ha.
  assert (Hz : round_nearest_even (inject_Z z) = z).
  { unfold round_nearest_even, round_half_even. cbn.
    rewrite Z.div_1_r, Z.mod_1_r. reflexivity. }
  apply Z.le_antisymm.
  - apply Z.le_trans with (round_nearest_even (inject_Z z)); [| lia].
    apply round_nearest_even_mono. rewrite Ha. apply Qle_refl.
  - apply Z.le_trans with (round_nearest_even (inject_Z z)); [lia |].
    apply round_nearest_even_mono. rewrite Ha. apply Qle_refl.
Qed.

Lemma two_pos k : 0 < 2 ^ k.
Proof. apply Qpower_0_lt. reflexivity. Qed.

Lemma two_not_0 : ~ 2 == 0.
Proof. discriminate. Qed.

(** The exponent brackets a positive rational between two powers of 2. *)
Lemma binary_exponent_spec x :
  0 < x -> 2 ^ binary_exponent x <= x /\ x < 2 ^ (binary_exponent x + 1).
Proof.
  intros Hx. destruct x as [n d]. unfold binary_exponent. cbn [Qnum Qden].
  assert (Hn : (0 < n)%Z).
  { unfold Qlt in Hx. cbn in Hx. lia. }
  destruct (Z.log2_spec n Hn) as [Ln Un].
  destruct (Z.log2_spec (Zpos d) ltac:(lia)) as [Ld Ud].
  pose proof (Z.log2_nonneg n) as Nn. pose proof (Z.log2_nonneg (Zpos d)) as Nd.
  set (ln := Z.log2 n) in *. set (ld := Z.log2 (Zpos d)) in *.
  assert (Ln' : 2 ^ ln <= inject_Z n).
  { rewrite <- (Zpower_Qpower 2 ln Nn). by rewrite <- Zle_Qle. }
  assert (Un' : inject_Z n < 2 ^ (ln + 1)).
  { rewrite <- (Zpower_Qpower 2 (ln + 1)) by lia. by rewrite <- Zlt_Qlt. }
  assert (Ld' : 2 ^ ld <= inject_Z (Zpos d)).
  { rewrite <- (Zpower_Qpower 2 ld Nd). by rewrite <- Zle_Qle. }
  assert (Ud' : inject_Z (Zpos d) < 2 ^ (ld + 1)).
  { rewrite <- (Zpower_Qpower 2 (ld + 1)) by lia. by rewrite <- Zlt_Qlt. }
  assert (Hd : 0 < inject_Z (Zpos d)) by reflexivity.
  assert (Hx' : n # d == inject_Z n / inject_Z (Zpos d)) by apply Qmake_Qdiv.
  (* 2^(ln - ld - 1) < x < 2^(ln - ld + 1) *)
  assert (Lo : 2 ^ (ln - ld - 1) < n # d).
  { rewrite Hx'. apply Qlt_shift_div_l; [done |].
    apply Qlt_le_trans with (2 ^ (ln - ld - 1) * 2 ^ (ld + 1)).
    - apply Qmult_lt_l; [apply two_pos | done].
    - rewrite <- Qpower_plus by apply two_not_0.
      replace (ln - ld - 1 + (ld + 1))%Z with ln by lia. done. }
  assert (Hi : n # d < 2 ^ (ln - ld + 1)).
  { rewrite Hx'. apply Qlt_shift_div_r; [done |].
    apply Qlt_le_trans with (2 ^ (ln + 1)); [done |].
    replace (ln + 1)%Z with (ln - ld + 1 + ld)%Z at 1 by lia.
    rewrite Qpower_plus by apply two_not_0.
    apply Qmult_le_l; [apply two_pos | done]. }
  destruct (Py.gtb (2 ^ (ln - ld)) (n # d)) eqn:E.
  - apply gtb_lt in E. split; [by apply Qlt_le_weak |].
    replace (ln - ld - 1 + 1)%Z with (ln - ld)%Z by lia. done.
  - apply gtb_false_le in E. split; done.
Qed.

Lemma pow2_split (a b : Z) : 2 ^ a * 2 ^ b == 2 ^ (a + b).
Proof. symmetry. apply Qpower_plus, two_not_0. Qed.

Lemma pow2_mono (a b : Z) : (a <= b)%Z -> 2 ^ a <= 2 ^ b.
Proof. intros H. apply Qpower_le_compat_l; [done | discriminate]. Qed.

Lemma magnitude_nonneg x : 0 < x -> 0 <= binary32_magnitude x.
Proof.
  intros Hx. unfold binary32_magnitude.
  set (k := (Z.max (binary_exponent x) (-126) - 23)%Z).
  apply Qmult_le_0_compat; [| apply Qlt_le_weak, two_pos].
  change 0 with (inject_Z 0). rewrite <- Zle_Qle.
  rewrite <- (round_nearest_even_Z 0 0) by reflexivity.
  apply round_nearest_even_mono.
  apply Qle_shift_div_l; [apply two_pos |]. rewrite Qmult_0_l.
  by apply Qlt_le_weak.
Qed.

Lemma magnitude_upper x :
  0 < x ->
  binary32_magnitude x <= 2 ^ (Z.max (binary_exponent x) (-126) + 1).
Proof.
  intros Hx. destruct (binary_exponent_spec x Hx) as [_ Hup].
  unfold binary32_magnitude.
  set (E := Z.max (binary_exponent x) (-126)) in *.
  assert (Hscaled : x / 2 ^ (E - 23) <= inject_Z (2 ^ 24)).
  { apply Qle_shift_div_r; [apply two_pos |].
    change (inject_Z (2 ^ 24)) with (2 ^ 24). rewrite pow2_split.
    replace (24 + (E - 23))%Z with (E + 1)%Z by lia.
    apply Qle_trans with (2 ^ (binary_exponent x + 1)); [by apply Qlt_le_weak |].
    apply pow2_mono. lia. }
  apply round_nearest_even_mono in Hscaled.
  rewrite (round_nearest_even_Z (inject_Z (2 ^ 24)) (2 ^ 24)) in Hscaled
    by reflexivity.
  apply Qle_trans with (inject_Z (2 ^ 24) * 2 ^ (E - 23)).
  - apply Qmult_le_compat_r; [by rewrite <- Zle_Qle | apply Qlt_le_weak, two_pos].
  - change (inject_Z (2 ^ 24)) with (2 ^ 24). rewrite pow2_split.
    replace (24 + (E - 23))%Z with (E + 1)%Z by lia. apply Qle_refl.
Qed.

Lemma magnitude_lower x :
  0 < x -> (-126 <= binary_exponent x)%Z ->
  2 ^ binary_exponent x <= binary32_magnitude x.
Proof.
  intros Hx He. destruct (binary_exponent_spec x Hx) as [Hlo _].
  unfold binary32_magnitude. rewrite Z.max_l by lia.
  set (e := binary_exponent x) in *.
  assert (Hscaled : inject_Z (2 ^ 23) <= x / 2 ^ (e - 23)).
  { apply Qle_shift_div_l; [apply two_pos |].
    change (inject_Z (2 ^ 23)) with (2 ^ 23). rewrite pow2_split.
    by replace (23 + (e - 23))%Z with e by lia. }
  apply round_nearest_even_mono in Hscaled.
  rewrite (round_nearest_even_Z (inject_Z (2 ^ 23)) (2 ^ 23)) in Hscaled
    by reflexivity.
  apply Qle_trans with (inject_Z (2 ^ 23) * 2 ^ (e - 23)).
  - change (inject_Z (2 ^ 23)) with (2 ^ 23). rewrite pow2_split.
    replace (23 + (e - 23))%Z with e by lia. apply Qle_refl.
  - apply Qmult_le_compat_r; [by rewrite <- Zle_Qle | apply Qlt_le_weak, two_pos].
Qed.

Lemma binary_exponent_mono x y :
  0 < x -> x <= y -> (binary_exponent x <= binary_exponent y)%Z.
Proof.
  intros Hx Hxy.
  assert (Hy : 0 < y) by (by apply Qlt_le_trans with x).
  destruct (binary_exponent_spec x Hx) as [Hlo _].
  destruct (binary_exponent_spec y Hy) as [_ Hup].
  assert (H : 2 ^ binary_exponent x < 2 ^ (binary_exponent y + 1)).
  { apply Qle_lt_trans with x; [done |]. by apply Qle_lt_trans with y. }
  apply Qpower_lt_compat_l_inv in H; [lia | reflexivity].
Qed.

Lemma magnitude_mono x y :
  0 < x -> x <= y -> binary32_magnitude x <= binary32_magnitude y.
Proof.
  intros Hx Hxy.
  assert (Hy : 0 < y) by (by apply Qlt_le_trans with x).
  pose proof (binary_exponent_mono x y Hx Hxy) as He.
  destruct (Z.eq_dec (Z.max (binary_exponent x) (-126))
                     (Z.max (binary_exponent y) (-126))) as [Heq | Hne].
  - unfold binary32_magnitude. rewrite Heq.
    set (k := (Z.max (binary_exponent y) (-126) - 23)%Z).
    apply Qmult_le_compat_r; [| apply Qlt_le_weak, two_pos].
    rewrite <- Zle_Qle. apply round_nearest_even_mono.
    apply Qmult_le_compat_r; [done |].
    apply Qlt_le_weak, Qinv_lt_0_compat, two_pos.
  - apply Qle_trans with (2 ^ (Z.max (binary_exponent x) (-126) + 1));
      [by apply magnitude_upper |].
    apply Qle_trans with (2 ^ binary_exponent y);
      [apply pow2_mono; lia | apply magnitude_lower; [done | lia]].
Qed.

(** Rounding to binary32 is monotone. *)
Lemma binary32_round_mono x y :
  x <= y -> binary32_round x <= binary32_round y.
Proof.
  intros Hxy. unfold binary32_round.
  destruct x as [nx dx], y as [ny dy]. cbn [Qnum].
  assert (Hsign : forall n d, (0 < n)%Z -> 0 < n # d).
  { intros n d Hn. unfold Qlt. cbn. lia. }
  assert (Hneg : forall p d, 0 < - (Zneg p # d)).
  { intros p d. unfold Qlt. cbn. lia. }
  destruct nx as [| px | px], ny as [| py | py];
    try (exfalso; unfold Qle in Hxy; cbn in Hxy; lia).
  - apply Qle_refl.
  - apply magnitude_nonneg, Hsign. lia.
  - by apply magnitude_mono; [apply Hsign; lia |].
  - apply (Qopp_le_compat 0). apply magnitude_nonneg, Hneg.
  - apply Qle_trans with 0.
    + apply (Qopp_le_compat 0). apply magnitude_nonneg, Hneg.
    + apply magnitude_nonneg, Hsign. lia.
  - apply Qopp_le_compat. apply magnitude_mono; [apply Hneg |].
    by apply Qopp_le_compat.
Qed.

End Binary32.

Section Verdict.

Variable astype_float32 : Q -> Q.

Abbreviation predict' := (predict astype_float32).

(** The float64 comparison is the instance of numpy's comparison that
    leaves the Python float as it is. *)
Lemma predict_np_exact self features_dict inference_time now :
  predict_np (fun x => x) astype_float32 self features_dict inference_time now
  = predict' self features_dict inference_time now.
Proof. reflexivity. Qed.

(** What a completed call to [predict_np] has gone through. *)
Lemma predict_np_completed weak_float self features_dict inference_time now
    self' printed r :
  predict_np weak_float astype_float32 self features_dict inference_time now
  = (self', printed, inr r) ->
  predicted_class r ∈ classes self /\
  is_attack r
  = critical_attack_np weak_float self (predicted_class r) (confidence r) /\
  is_ddos r =
    (if negb (benign_label (predicted_class r))
     then Py.in_list (predicted_class r) (ddos_classes self)
     else false).
Proof.
  unfold predict_np.
  destruct (preprocess_features astype_float32 self features_dict)
    as [features out].
  destruct (session self features) as [e | [| row rest]]; try discriminate.
  destruct (Np.argmax row) as [e | idx]; try discriminate.
  destruct (classes self !! idx) as [c |] eqn:Hc; try discriminate.
  destruct (row !! idx) as [conf |]; try discriminate.
  intros [= <- <- <-]. cbn. split; [by eapply list_elem_of_lookup_2 |].
  split; [done |]. by destruct (Py.truthy _).
Qed.

Lemma critical_attack_np_truthy weak_float self c conf :
  benign_label c = false ->
  Py.truthy (critical_attack_np weak_float self c conf)
  = Py.gtb conf (weak_float (confidence_threshold self))
      && negb (Py.in_list c (low_threat_classes self))
    || Py.gtb conf (weak_float (confidence_threshold self))
      && Py.in_list c (ddos_classes self)
    || Py.gtb conf (weak_float (9 # 10)).
Proof.
  intros Hb. unfold critical_attack_np, np_gtb. rewrite Hb.
  destruct (Py.gtb conf (weak_float (confidence_threshold self)));
  destruct (Py.in_list c (low_threat_classes self));
  destruct (Py.in_list c (ddos_classes self));
  destruct (Py.gtb conf (weak_float (9 # 10))); reflexivity.
Qed.

(** C1 (amended).  For a completed prediction whose class is not a benign
    label, the verdict [is_attack] is true exactly when the confidence is
    strictly above the converted threshold and the class is outside the
    low-threat list, or strictly above the converted threshold with
    [is_ddos], or strictly above the converted 0.9, where a Python float is
    converted as numpy does before it compares it with the float32
    confidence.  When the conversion is monotone and keeps the confidence
    (a float32 value), a true verdict implies the same three-way
    disjunction with the threshold and 0.9 as written, and a low-threat
    class without the DDoS/DoS substrings, with a confidence strictly
    above the threshold and at most 0.9, is not an attack.  When the
    converted threshold and the converted 0.9 do not exceed the written
    ones, the disjunction as written implies a true verdict. *)
Theorem predict_np_verdict weak_float self features_dict inference_time now
    self' printed r :
  predict_np weak_float astype_float32 self features_dict inference_time now
  = (self', printed, inr r) ->
  benign_label (predicted_class r) = false ->
  (Py.truthy (is_attack r) = true <->
     (weak_float (confidence_threshold self) < confidence r /\
      predicted_class r ∉ low_threat_classes self)
     \/ (weak_float (confidence_threshold self) < confidence r /\
         is_ddos r = true)
     \/ weak_float (9 # 10) < confidence r)
  /\ ((forall x y, x <= y -> weak_float x <= weak_float y) ->
      weak_float (confidence r) == confidence r ->
      (Py.truthy (is_attack r) = true ->
         (confidence_threshold self < confidence r /\
          predicted_class r ∉ low_threat_classes self)
         \/ (confidence_threshold self < confidence r /\ is_ddos r = true)
         \/ 9 # 10 < confidence r)
      /\ (predicted_class r ∈ low_threat_classes self ->
          Py.contains "DDoS" (predicted_class r) = false ->
          Py.contains "DoS" (predicted_class r) = false ->
          confidence_threshold self < confidence r ->
          confidence r <= 9 # 10 ->
          Py.truthy (is_attack r) = false))
  /\ (weak_float (confidence_threshold self) <= confidence_threshold self ->
      weak_float (9 # 10) <= 9 # 10 ->
      (confidence_threshold self < confidence r /\
       predicted_class r ∉ low_threat_classes self)
      \/ (confidence_threshold self < confidence r /\ is_ddos r = true)
      \/ 9 # 10 < confidence r ->
      Py.truthy (is_attack r) = true).
Proof.
  intros Hp Hb.
  apply predict_np_completed in Hp as (Hin & Hatt & Hddos).
  rewrite Hb in Hddos. cbn [negb] in Hddos.
  assert (Hiff : Py.truthy (is_attack r) = true <->
     (weak_float (confidence_threshold self) < confidence r /\
      predicted_class r ∉ low_threat_classes self)
     \/ (weak_float (confidence_threshold self) < confidence r /\
         is_ddos r = true)
     \/ weak_float (9 # 10) < confidence r).
  { rewrite Hatt, (critical_attack_np_truthy _ _ _ _ Hb), Hddos.
    rewrite !orb_true_iff, !andb_true_iff, !gtb_lt, negb_true_iff, in_list_false.
    tauto. }
  split; [exact Hiff |]. split.
  - intros Hmono Hrep.
    assert (Hexact : forall y, weak_float y < confidence r -> y < confidence r).
    { intros y Hy. apply Qnot_le_lt. intros Hle.
      apply Hmono in Hle. rewrite Hrep in Hle.
      by apply (Qlt_not_le _ _ Hy). }
    split.
    + intros Ht. apply Hiff in Ht as [[H1 H2] | [[H1 H2] | H]].
      * left. split; [by apply Hexact | done].
      * right; left. split; [by apply Hexact | done].
      * right; right. by apply Hexact.
    + intros Hlow Hd1 Hd2 Hthr Hle.
      destruct (Py.truthy (is_attack r)) eqn:E; [| done]. exfalso.
      destruct (proj1 Hiff eq_refl) as [[_ H2] | [[_ H2] | H]].
      * done.
      * rewrite Hddos, (in_ddos_classes _ _ Hin), Hd1, Hd2 in H2. done.
      * apply Hexact in H. by apply (Qlt_not_le _ _ H).
  - intros Hthr H9 Hor. apply Hiff.
    destruct Hor as [[H1 H2] | [[H1 H2] | H]].
    + left. split; [by apply Qle_lt_trans with (confidence_threshold self) | done].
    + right; left.
      split; [by apply Qle_lt_trans with (confidence_threshold self) | done].
    + right; right. by apply Qle_lt_trans with (9 # 10).
Qed.

(** C2.  When the lowercased class is one of "benigntraffic", "benign" and
    "normal", the result has is_benign = True and is_attack, is_high_threat
    and is_ddos all False, whatever the confidence, and the attack counter
    is not touched; and for every result, is_benign implies that is_attack
    is false. *)
Theorem benign_short_circuit self features_dict inference_time now
    self' printed r :
  predict' self features_dict inference_time now = (self', printed, inr r) ->
  (Py.lower (predicted_class r) ∈ ["benigntraffic"; "benign"; "normal"] ->
     is_benign r = true /\ is_attack r = Py.PyBool false /\
     is_high_threat r = false /\ is_ddos r = false /\
     attack_detections self' = attack_detections self)
  /\ (is_benign r = true -> Py.truthy (is_attack r) = false).
Proof.
  intros Hp.
  apply predict_completed in Hp
    as (rest & row & idx & _ & _ & _ & _ & _ & _ & Hatt & Hself & Hben & Hht & Hddos & _).
  assert (Hshort : benign_label (predicted_class r) = true ->
                   is_attack r = Py.PyBool false).
  { intros Hb. rewrite Hatt. unfold critical_attack. by rewrite Hb. }
  split.
  - intros Hl. apply in_list_elem_of in Hl. fold (benign_label (predicted_class r)) in Hl.
    specialize (Hshort Hl). rewrite Hl in *. cbn [negb] in *.
    rewrite Hshort in Hself. cbn in Hself. subst self'. done.
  - intros Hb. rewrite Hben in Hb. by rewrite (Hshort Hb).
Qed.

(** C4.  For a completed prediction whose class is not a benign label, the
    class is one of [classes]; the field [is_ddos] is true exactly when the
    label contains "DDoS" or "DoS" (case-sensitive); the membership test of
    the verdict in the list of labels containing these substrings has the
    same value; and the verdict is computed from that very value. *)
Theorem is_ddos_substring self features_dict inference_time now
    self' printed r :
  predict' self features_dict inference_time now = (self', printed, inr r) ->
  benign_label (predicted_class r) = false ->
  predicted_class r ∈ classes self /\
  is_ddos r
  = Py.contains "DDoS" (predicted_class r) || Py.contains "DoS" (predicted_class r) /\
  Py.in_list (predicted_class r) (ddos_classes self) = is_ddos r /\
  is_attack r
  = (let high_confidence_attack :=
       Py.NpBool (Py.gtb (confidence r) (confidence_threshold self)) in
     Py.or_
       (Py.or_ (Py.and_ high_confidence_attack (Py.PyBool (is_high_threat r)))
               (Py.and_ high_confidence_attack (Py.PyBool (is_ddos r))))
       (Py.NpBool (Py.gtb (confidence r) (9 # 10)))).
Proof.
  intros Hp Hb.
  pose proof (predicted_class_in_classes _ _ _ _ _ _ _ _ Hp) as Hin.
  apply predict_completed in Hp
    as (rest & row & idx & _ & _ & _ & _ & _ & _ & Hatt & _ & _ & Hht & Hddos & _).
  rewrite Hb in Hht, Hddos. cbn [negb] in Hht, Hddos.
  repeat split; try done.
  - by rewrite Hddos, (in_ddos_classes _ _ Hin).
  - rewrite Hatt, Hht, Hddos. unfold critical_attack. by rewrite Hb.
Qed.

(** C10.  For every result, is_attack implies that the confidence is
    strictly above the threshold or strictly above 0.9; with the default
    threshold 0.8 a confidence of at most 0.8 is never an attack. *)
Theorem attack_needs_confidence self features_dict inference_time now
    self' printed r :
  predict' self features_dict inference_time now = (self', printed, inr r) ->
  (Py.truthy (is_attack r) = true ->
     confidence_threshold self < confidence r \/ 9 # 10 < confidence r)
  /\ (confidence_threshold self == default_confidence_threshold ->
      confidence r <= 8 # 10 ->
      Py.truthy (is_attack r) = false).
Proof.
  intros Hp.
  apply predict_completed in Hp
    as (rest & row & idx & _ & _ & _ & _ & _ & _ & Hatt & _).
  assert (Hneed : Py.truthy (is_attack r) = true ->
     confidence_threshold self < confidence r \/ 9 # 10 < confidence r).
  { rewrite Hatt. destruct (benign_label (predicted_class r)) eqn:Hb.
    - unfold critical_attack. rewrite Hb. discriminate.
    - rewrite (critical_attack_truthy _ _ _ Hb).
      rewrite !orb_true_iff, !andb_true_iff, !gtb_lt. tauto. }
  split; [exact Hneed |].
  intros Hthr Hle. destruct (Py.truthy (is_attack r)) eqn:E; [| done].
  exfalso. destruct (Hneed eq_refl) as [H | H].
  - rewrite Hthr in H. unfold default_confidence_threshold in H.
    apply (Qlt_irrefl (8 # 10)). by apply Qlt_le_trans with (confidence r).
  - apply (Qlt_irrefl (8 # 10)). apply Qlt_trans with (9 # 10); [done |].
    by apply Qlt_le_trans with (confidence r).
Qed.

End Verdict.

Section Counters.

Variable astype_float32 : Q -> Q.

Abbreviation predict' := (predict astype_float32).

Lemma grows_refl d : grows d d.
Proof. repeat split; reflexivity. Qed.

Lemma grows_trans d1 d2 d3 : grows d1 d2 -> grows d2 d3 -> grows d1 d3.
Proof.
  intros (H1 & H2 & H3) (H4 & H5 & H6). repeat split; [lia | lia |].
  by etrans.
Qed.

Lemma predict_step self features_dict inference_time now self' printed r :
  predict' self features_dict inference_time now = (self', printed, inr r) ->
  total_predictions self' = (total_predictions self + 1)%Z /\
  inference_times self' = inference_times self ++ [inference_time] /\
  attack_detections self'
  = (attack_detections self + if Py.truthy (is_attack r) then 1 else 0)%Z.
Proof.
  intros Hp.
  apply predict_completed in Hp
    as (rest & row & idx & _ & _ & _ & _ & _ & _ & _ & Hself & _).
  subst self'. destruct (Py.truthy (is_attack r)); cbn; repeat split; lia.
Qed.

Lemma run_op_grows self op : grows self (run_op astype_float32 self op).
Proof.
  destruct op as [fd | fd t now |]; cbn [run_op]; try apply grows_refl.
  destruct (predict' self fd t now) as [[self' printed] [e | r]] eqn:Hp; cbn [fst].
  - apply predict_raised in Hp. subst. apply grows_refl.
  - apply predict_step in Hp as (Ht & Hi & Ha). unfold grows.
    rewrite Ht, Hi, Ha. repeat split; [lia | | by apply prefix_app_r].
    destruct (Py.truthy (is_attack r)); lia.
Qed.

Lemma run_ops_grows ops self : grows self (run_ops astype_float32 self ops).
Proof.
  revert self. induction ops as [| op ops IH]; intros self; [apply grows_refl |].
  cbn. eapply grows_trans; [apply run_op_grows | apply IH].
Qed.

(** C7.  A completed call to [predict] adds exactly 1 to total_predictions,
    appends exactly the measured latency to inference_times, and adds 1 to
    attack_detections when the result has is_attack true and 0 otherwise;
    no sequence of operations on the detector ever lowers a counter or
    drops a recorded latency. *)
Theorem predict_counters self features_dict inference_time now :
  (forall self' printed r,
     predict' self features_dict inference_time now = (self', printed, inr r) ->
     total_predictions self' = (total_predictions self + 1)%Z /\
     inference_times self' = inference_times self ++ [inference_time] /\
     attack_detections self'
     = (attack_detections self + if Py.truthy (is_attack r) then 1 else 0)%Z)
  /\ (forall ops,
        let self' := run_ops astype_float32 self ops in
        (total_predictions self <= total_predictions self')%Z /\
        (attack_detections self <= attack_detections self')%Z /\
        inference_times self `prefix_of` inference_times self').
Proof.
  split.
  - intros self' printed r. apply predict_step.
  - intros ops. apply run_ops_grows.
Qed.

(** C8.  In a completed prediction, predicted_class is the label of
    [classes] at the position given by [np.argmax] on the probability row
    returned by the model, confidence is the entry at that position, no
    entry of the row is larger, and every entry before that position is
    strictly smaller: among tied maxima the first one is taken. *)
Theorem predict_argmax self features_dict inference_time now self' printed r :
  predict' self features_dict inference_time now = (self', printed, inr r) ->
  exists idx rest,
    session self (preprocess_features astype_float32 self features_dict).1
    = inr (all_probabilities r :: rest) /\
    Np.argmax (all_probabilities r) = inr idx /\
    classes self !! idx = Some (predicted_class r) /\
    all_probabilities r !! idx = Some (confidence r) /\
    (forall j p, all_probabilities r !! j = Some p -> p <= confidence r) /\
    (forall j p, (j < idx)%nat -> all_probabilities r !! j = Some p ->
                 p < confidence r).
Proof.
  intros Hp.
  apply predict_completed in Hp
    as (rest & row & idx & Hs & _ & Hidx & Hc & Hconf & Hrow & _).
  subst row. exists idx, rest.
  destruct (argmax_first_max _ _ Hidx) as (c & Hb & Hmax & Hfirst).
  assert (c = confidence r) as -> by congruence.
  done.
Qed.

End Counters.

Section Normalizer.

Variable astype_float32 : Q -> Q.

Abbreviation preprocess' := (preprocess_features astype_float32).
Abbreviation predict' := (predict astype_float32).






Lemma astype_row (a : Array2D) :
  Forall (Forall (fun y => exists x, y = astype_float32 x))
    (astype astype_float32 a).
Proof.
  unfold astype. apply Forall_map, Forall_true. intros row.
  apply Forall_map, Forall_true. intros x. by exists x.
Qed.

Lemma astype_shape (a : Array2D) :
  map length (astype astype_float32 a) = map length a.
Proof.
  unfold astype. rewrite map_map. apply map_ext. intros row. apply length_map.
Qed.


End Normalizer.

Section Fallback.

Variable astype_float32 : Q -> Q.

Abbreviation preprocess' := (preprocess_features astype_float32).
Abbreviation predict' := (predict astype_float32).

(** C9.  When the scaler raises, [preprocess_features] still returns: its
    result is the unscaled row after the float32 cast, and one warning
    line carrying the text of the exception is printed.  [predict] then
    runs on that row: whenever the model answers it with a non-empty
    probability row no longer than [classes], the call returns a result. *)
Theorem scaler_failure_fallback self features_dict inference_time now e :
  scaler self (features_df self features_dict) = inl e ->
  let raw := astype astype_float32 (features_df self features_dict) in
  let warning :=
    String.append
      "Aviso: Erro na normalização, usando dados sem normalização: "
      (Py.str e) in
  preprocess' self features_dict = (raw, [warning]) /\
  (forall row rest,
     session self raw = inr (row :: rest) ->
     row <> [] ->
     (length row <= length (classes self))%nat ->
     exists self' r,
       predict' self features_dict inference_time now
       = (self', [warning], inr r) /\
       all_probabilities r = row).
Proof.
  intros He raw warning.
  assert (Hpre : preprocess' self features_dict = (raw, [warning])).
  { unfold preprocess_features. by rewrite He. }
  split; [exact Hpre |].
  intros row rest Hs Hne Hlen.
  destruct (argmax_nonempty row Hne) as (idx & Hidx).
  destruct (argmax_first_max row idx Hidx) as (c & Hc & _).
  pose proof (lookup_lt_Some _ _ _ Hc) as Hlt.
  destruct (lookup_lt_is_Some_2 (classes self) idx) as (cls & Hcls); [lia |].
  unfold predict. rewrite Hpre, Hs, Hidx, Hcls, Hc. eauto.
Qed.

End Fallback.

Section Statistics.

Variable astype_float32 : Q -> Q.

(** Counting from zero keeps the counter equal to the number of recorded
    latencies. *)
Lemma run_ops_total_length ops self :
  total_predictions self = Z.of_nat (length (inference_times self)) ->
  total_predictions (run_ops astype_float32 self ops)
  = Z.of_nat (length (inference_times (run_ops astype_float32 self ops))).
Proof.
  revert self. induction ops as [| op ops IH]; intros self Hinv; [done |].
  cbn. apply IH. destruct op as [fd | fd t now |]; cbn [run_op]; try done.
  destruct (predict astype_float32 self fd t now)
    as [[self' printed] [e | r]] eqn:Hp; cbn [fst].
  - apply predict_raised in Hp. by subst.
  - apply predict_step in Hp as (Ht & Hi & _).
    rewrite Ht, Hi, length_app, Hinv. cbn. lia.
Qed.

Lemma attack_rate_total self :
  exists rate, attack_rate self = inr rate /\
    ((total_predictions self <= 0)%Z -> rate = VInt 0) /\
    ((0 < total_predictions self)%Z ->
       rate = VFloat (inject_Z (attack_detections self)
                      / inject_Z (total_predictions self))).
Proof.
  unfold attack_rate, int_truediv.
  destruct (total_predictions self >? 0)%Z eqn:E.
  - apply Z.gtb_lt in E. destruct (Z.eqb_spec (total_predictions self) 0); [lia |].
    eexists. split; [done |]. split; [lia | done].
  - eexists. split; [done |]. split; [done |]. intros H.
    apply Z.gtb_lt in H. congruence.
Qed.

(** C3 (amended).  [get_statistics] never raises.  With no recorded latency
    it returns the empty dictionary, which has no 'attack_rate' and no
    'throughput_per_second' entry; this is the case whenever
    total_predictions = 0 on a detector that has counted from zero.  With
    a recorded latency, 'attack_rate' is attack_detections /
    total_predictions when total_predictions > 0 and the integer 0
    otherwise, and 'throughput_per_second' is reported as 1000 divided by
    the mean latency (numpy's division: infinity on a zero mean). *)
Theorem get_statistics_guarded self :
  exists m,
    get_statistics self = inr m /\
    (inference_times self = [] -> m = ∅) /\
    (forall d0 ops,
       total_predictions d0 = 0%Z -> inference_times d0 = [] ->
       self = run_ops astype_float32 d0 ops ->
       total_predictions self = 0%Z -> m = ∅) /\
    (inference_times self <> [] -> (total_predictions self <= 0)%Z ->
       m !! "attack_rate" = Some (VInt 0)) /\
    (inference_times self <> [] -> (0 < total_predictions self)%Z ->
       m !! "attack_rate"
       = Some (VFloat (inject_Z (attack_detections self)
                       / inject_Z (total_predictions self)))) /\
    (forall v, m !! "throughput_per_second" = Some v ->
       inference_times self <> [] /\
       v = np_rtruediv 1000 (Np.mean (inference_times self))) /\
    (inference_times self <> [] ->
       m !! "throughput_per_second"
       = Some (np_rtruediv 1000 (Np.mean (inference_times self))) /\
       (~ Np.mean (inference_times self) == 0 ->
        m !! "throughput_per_second"
        = Some (VFloat (inject_Z 1000 / Np.mean (inference_times self))))).
Proof.
  unfold get_statistics.
  destruct (inference_times self) as [| t ts] eqn:Hts.
  - exists ∅. repeat split; try done.
  - destruct (attack_rate_total self) as (rate & Hr & Hzero & Hpos).
    rewrite Hr. eexists. split; [reflexivity |].
    split; [done |]. split; [| split; [| split; [| split]]].
    + intros d0 ops Hd0 Hd0' -> Hz.
      pose proof (run_ops_total_length ops d0) as Hinv.
      rewrite Hd0, Hd0' in Hinv. specialize (Hinv eq_refl).
      rewrite Hz, Hts in Hinv. cbn in Hinv. lia.
    + intros _ Hle. by rewrite (Hzero Hle).
    + intros _ Hlt. by rewrite (Hpos Hlt).
    + intros v Hv. split; [done |]. cbn in Hv. by simplify_map_eq.
    + intros _. split; [done |]. intros Hmean.
      unfold np_rtruediv.
      destruct (Qeq_bool (Np.mean (t :: ts)) 0) eqn:E; [| done].
      apply Qeq_bool_iff in E. contradiction.
Qed.

End Statistics.

Section Worker.

Variable astype_float32 : Q -> Q.
Variable format_3f : Q -> string.

Abbreviation predict' := (predict astype_float32).
Abbreviation process_item' := (process_item astype_float32 format_3f).
Abbreviation notice' := (notice format_3f).

Lemma save_result_report self message :
  report (save_result self message) = report self ++ [message] /\
  log_file (save_result self message) = log_file self /\
  results (save_result self message) = results self.
Proof. unfold save_result, report. by destruct (result_file self). Qed.

Lemma log_detection_builtin self r b :
  is_attack r = Py.PyBool b ->
  exists self',
    log_detection self r = inr self' /\
    report self' = report self /\
    log_file self' = log_file self ++ [JsonObject r] /\
    results self' = results self.
Proof.
  intros Hatt. unfold log_detection, json_dumps. rewrite Hatt.
  eexists. split; [reflexivity |]. done.
Qed.

Lemma log_detection_numpy self r b :
  is_attack r = Py.NpBool b ->
  log_detection self r
  = inl (Py.TypeError "Object of type bool_ is not JSON serializable").
Proof. intros Hatt. unfold log_detection, json_dumps. by rewrite Hatt. Qed.

(** What the worker does with a completed prediction.  A verdict that is
    a builtin [bool] is routed as intended; a true verdict that is a
    [numpy.bool_] gets its CRITICAL notice, then [json.dumps] raises, no
    line reaches the alert log and an error line follows the notice. *)
Lemma process_item_routing self features_dict inference_time now d printed r :
  predict' (detector self) features_dict inference_time now
  = (d, printed, inr r) ->
  let before := after_predict self d printed in
  let self' := process_item' self features_dict inference_time now in
  results self' = results self ++ [r] /\
  match is_attack r with
  | Py.PyBool true =>
      report self' = report before ++ [notice' CRITICAL r] /\
      log_file self' = log_file self ++ [JsonObject r]
  | Py.NpBool true =>
      report self'
      = report before
        ++ [notice' CRITICAL r;
            error_msg
              (Py.TypeError "Object of type bool_ is not JSON serializable")] /\
      log_file self' = log_file self
  | _ =>
      log_file self' = log_file self /\
      report self'
      = report before
        ++ [notice'
              (if is_benign r then NORMAL
               else if Py.geb (confidence r) (confidence_threshold d)
                    then SUSPICIOUS else LOW_RISK) r]
  end.
Proof.
  intros Hp before self'. subst self'. unfold process_item. rewrite Hp.
  fold before.
  destruct (is_attack r) as [[|] | [|]] eqn:Hatt; cbn [Py.truthy].
  - destruct (log_detection_builtin
                (save_result (append_result before r) (notice' CRITICAL r)) r true Hatt)
      as (self3 & -> & H1 & H2 & H3).
    pose proof (save_result_report (append_result before r) (notice' CRITICAL r))
      as (H4 & H5 & H6).
    rewrite H1, H2, H3, H4, H5, H6. done.
  - destruct (is_benign r);
      [| destruct (Py.geb (confidence r) _)];
      match goal with
      | |- context [save_result ?m ?msg] =>
          pose proof (save_result_report m msg) as (H1 & H2 & H3);
          rewrite H1, H2, H3; done
      end.
  - rewrite (log_detection_numpy _ r true Hatt).
    match goal with
    | |- context [save_result (save_result ?m ?msg1) ?msg2] =>
        pose proof (save_result_report (save_result m msg1) msg2) as (H1 & H2 & H3);
        pose proof (save_result_report m msg1) as (H4 & H5 & H6);
        rewrite H1, H2, H3, H4, H5, H6, <- app_assoc; done
    end.
  - destruct (is_benign r);
      [| destruct (Py.geb (confidence r) _)];
      match goal with
      | |- context [save_result ?m ?msg] =>
          pose proof (save_result_report m msg) as (H1 & H2 & H3);
          rewrite H1, H2, H3; done
      end.
Qed.

(** The dynamic type of a true verdict: it is a builtin [bool] exactly
    when one of the two threshold criteria holds, and the [numpy.bool_] of
    the comparison with 0.9 when the override alone makes it true. *)
Lemma critical_attack_dynamic_type self c conf :
  benign_label c = false ->
  Py.truthy (critical_attack self c conf) = true ->
  critical_attack self c conf
  = if Py.gtb conf (confidence_threshold self)
       && (negb (Py.in_list c (low_threat_classes self))
           || Py.in_list c (ddos_classes self))
    then Py.PyBool true else Py.NpBool true.
Proof.
  intros Hb. unfold critical_attack. rewrite Hb.
  destruct (Py.gtb conf (confidence_threshold self));
  destruct (Py.in_list c (low_threat_classes self));
  destruct (Py.in_list c (ddos_classes self));
  destruct (Py.gtb conf (9 # 10)); cbn; congruence.
Qed.

(** Hence the alert log misses exactly the attacks flagged by the override
    alone. *)
Lemma attack_logged_iff self features_dict inference_time now d printed r :
  predict' (detector self) features_dict inference_time now
  = (d, printed, inr r) ->
  Py.truthy (is_attack r) = true ->
  let self' := process_item' self features_dict inference_time now in
  (log_file self' = log_file self ++ [JsonObject r] <->
   Py.gtb (confidence r) (confidence_threshold (detector self))
   && (negb (Py.in_list (predicted_class r) (low_threat_classes (detector self)))
       || Py.in_list (predicted_class r) (ddos_classes (detector self)))
   = true).
Proof.
  intros Hp Hatt self'.
  pose proof (process_item_routing _ _ _ _ _ _ _ Hp) as [_ Hroute].
  fold self' in Hroute.
  apply predict_completed in Hp
    as (rest & row & idx & _ & _ & _ & _ & _ & _ & Hv & _).
  assert (Hb : benign_label (predicted_class r) = false).
  { destruct (benign_label (predicted_class r)) eqn:E; [| done].
    rewrite Hv in Hatt. unfold critical_attack in Hatt. by rewrite E in Hatt. }
  rewrite Hv in Hatt.
  pose proof (critical_attack_dynamic_type _ _ _ Hb Hatt) as Hty.
  rewrite <- Hv in Hty. rewrite Hty in Hroute.
  destruct (Py.gtb _ _ && _); destruct Hroute as [_ Hlog]; [done |].
  split; [| done]. rewrite Hlog. intros H.
  apply (f_equal length) in H. rewrite length_app in H. cbn in H. lia.
Qed.

End Worker.

(* --------------------------------------------------------------------- *)
(* Instances                                                             *)
(* --------------------------------------------------------------------- *)

Example binary32_of_threshold :
  binary32_round (8 # 10) = 13421773 # 16777216 /\
  binary32_round (9 # 10) = 15099494 # 16777216 /\
  binary32_round (1 # 10) = 13421773 # 134217728 /\
  binary32_round (7 # 8) == 7 # 8 /\
  binary32_round (13421773 # 16777216) = 13421773 # 16777216.
Proof. repeat split. Qed.

Example binary32_ties_to_even :
  binary32_round 16777217 == 16777216 /\ binary32_round 16777219 == 16777220.
Proof. split; reflexivity. Qed.

Lemma predict_np_verdict_witness :
  let now := "2024-05-01T10:00:00" in
  (let self := Demo.detector_with [1 # 16; 7 # 8; 1 # 32; 1 # 32] in
   exists self' printed r,
     predict_np binary32_round Demo.cast self Demo.sample 12 now
     = (self', printed, inr r) /\
     benign_label (predicted_class r) = false /\
     predicted_class r = "DDoS-ICMP_Flood" /\
     confidence r = 7 # 8 /\
     Py.truthy (is_attack r) = true) /\
  (let self :=
     Demo.detector_with [1 # 16; 1 # 32; 1 # 32; 14260634 # 16777216] in
   exists self' printed r,
     predict_np binary32_round Demo.cast self Demo.sample 12 now
     = (self', printed, inr r) /\
     benign_label (predicted_class r) = false /\
     predicted_class r = "VulnerabilityScan" /\
     confidence r = 14260634 # 16777216 /\
     binary32_round (confidence r) == confidence r /\
     Py.truthy (is_attack r) = false).
Proof.
  intros now. split; intros self; eexists _, _, _;
    (split; [reflexivity |]); (split; [reflexivity |]);
    (split; [reflexivity |]); (split; [reflexivity |]).
  - refine (proj2 (proj1 (predict_np_verdict Demo.cast binary32_round self
                            Demo.sample 12 now _ _ _ _ _)) _);
      [reflexivity | reflexivity |].
    left. split; [reflexivity |]. apply in_list_false. reflexivity.
  - split; [reflexivity |].
    refine (proj2 (proj1 (proj2 (predict_np_verdict Demo.cast binary32_round self
                            Demo.sample 12 now _ _ _ _ _)) _ _) _ _ _ _ _).
    + reflexivity.
    + reflexivity.
    + exact binary32_round_mono.
    + reflexivity.
    + apply in_list_elem_of. reflexivity.
    + reflexivity.
    + reflexivity.
    + reflexivity.
    + discriminate.
Defined.

(** C1, as stated, fails under numpy 2 at the float32 value nearest to the
    threshold: the class is "DDoS-ICMP_Flood", outside the low-threat
    list, and the confidence 13421773 / 2^24 is strictly above the
    threshold 0.8; but the threshold converts to that same float32 value,
    the comparison is false and so is the verdict. *)
Lemma float32_boundary_not_attack :
  let self :=
    Demo.detector_with
      [1118481 # 16777216; 13421773 # 16777216;
       1118481 # 16777216; 1118481 # 16777216] in
  exists self' printed r,
    predict_np binary32_round Demo.cast self Demo.sample 12 "2024-05-01T10:00:00"
    = (self', printed, inr r) /\
    benign_label (predicted_class r) = false /\
    predicted_class r = "DDoS-ICMP_Flood" /\
    binary32_round (confidence r) = confidence r /\
    confidence_threshold self < confidence r /\
    (predicted_class r ∉ low_threat_classes self) /\
    is_ddos r = true /\
    Py.truthy (is_attack r) = false.
Proof.
  intros self. eexists _, _, _. repeat split.
  apply in_list_false. reflexivity.
Qed.

Lemma benign_short_circuit_witness :
  let self := Demo.detector_with [99 # 100; 1 # 200; 1 # 400; 1 # 400] in
  exists self' printed r,
    predict Demo.cast self Demo.sample 12 "2024-05-01T10:00:00"
    = (self', printed, inr r) /\
    predicted_class r = "BenignTraffic" /\
    confidence r = 99 # 100 /\
    is_benign r = true /\ is_attack r = Py.PyBool false /\
    is_high_threat r = false /\ is_ddos r = false /\
    attack_detections self' = attack_detections self.
Proof.
  intros self. eexists _, _, _.
  split; [reflexivity |]. split; [reflexivity |]. split; [reflexivity |].
  refine (proj1 (benign_short_circuit Demo.cast self Demo.sample 12
                   "2024-05-01T10:00:00" _ _ _ _) _).
  - reflexivity.
  - apply in_list_elem_of. reflexivity.
Defined.

Lemma is_ddos_substring_witness :
  let self := Demo.detector_with [1 # 20; 17 # 20; 1 # 20; 1 # 20] in
  exists self' printed r,
    predict Demo.cast self Demo.sample 12 "2024-05-01T10:00:00"
    = (self', printed, inr r) /\
    predicted_class r = "DDoS-ICMP_Flood" /\
    is_ddos r
    = Py.contains "DDoS" (predicted_class r)
      || Py.contains "DoS" (predicted_class r).
Proof.
  intros self. eexists _, _, _.
  split; [reflexivity |]. split; [reflexivity |].
  refine (proj1 (proj2 (is_ddos_substring Demo.cast self Demo.sample 12
                          "2024-05-01T10:00:00" _ _ _ _ _))).
  - reflexivity.
  - reflexivity.
Defined.

Lemma attack_needs_confidence_witness :
  let self := Demo.detector_with [1 # 10; 4 # 5; 1 # 20; 1 # 20] in
  exists self' printed r,
    predict Demo.cast self Demo.sample 12 "2024-05-01T10:00:00"
    = (self', printed, inr r) /\
    predicted_class r = "DDoS-ICMP_Flood" /\
    confidence r = 4 # 5 /\
    Py.truthy (is_attack r) = false.
Proof.
  intros self. eexists _, _, _.
  split; [reflexivity |]. split; [reflexivity |]. split; [reflexivity |].
  refine (proj2 (attack_needs_confidence Demo.cast self Demo.sample 12
                   "2024-05-01T10:00:00" _ _ _ _) _ _).
  - reflexivity.
  - reflexivity.
  - discriminate.
Defined.

Lemma predict_counters_witness :
  let self := Demo.detector_with [1 # 20; 17 # 20; 1 # 20; 1 # 20] in
  exists self' printed r,
    predict Demo.cast self Demo.sample 12 "2024-05-01T10:00:00"
    = (self', printed, inr r) /\
    Py.truthy (is_attack r) = true /\
    total_predictions self' = 1%Z /\
    inference_times self' = [12] /\
    attack_detections self' = 1%Z.
Proof.
  intros self.
  destruct (proj1 (predict_counters Demo.cast self Demo.sample 12
                     "2024-05-01T10:00:00") _ _ _ eq_refl) as (H1 & H2 & H3).
  eexists _, _, _.
  split; [reflexivity |]. split; [reflexivity |].
  split; [exact H1 |]. split; [exact H2 | exact H3].
Defined.

Lemma predict_argmax_witness :
  let self := Demo.detector_with [1 # 10; 2 # 5; 2 # 5; 1 # 10] in
  exists self' printed r idx rest,
    predict Demo.cast self Demo.sample 12 "2024-05-01T10:00:00"
    = (self', printed, inr r) /\
    session self (preprocess_features Demo.cast self Demo.sample).1
    = inr (all_probabilities r :: rest) /\
    Np.argmax (all_probabilities r) = inr idx /\
    classes self !! idx = Some (predicted_class r) /\
    all_probabilities r !! idx = Some (confidence r) /\
    (forall j p, all_probabilities r !! j = Some p -> p <= confidence r) /\
    (forall j p, (j < idx)%nat -> all_probabilities r !! j = Some p ->
                 p < confidence r).
Proof.
  intros self.
  destruct (predict_argmax Demo.cast self Demo.sample 12 "2024-05-01T10:00:00"
              _ _ _ eq_refl) as (idx & rest & H).
  eexists _, _, _, idx, rest. split; [reflexivity | exact H].
Defined.

Example argmax_tie_first :
  exists self' printed r,
    predict Demo.cast (Demo.detector_with [1 # 10; 2 # 5; 2 # 5; 1 # 10])
      Demo.sample 12 "2024-05-01T10:00:00"
    = (self', printed, inr r) /\
    predicted_class r = "DDoS-ICMP_Flood" /\ confidence r = 2 # 5.
Proof. eexists _, _, _. repeat split. Qed.

Example sample_row :
  features_df (Demo.detector_with []) Demo.sample = [[3 # 2; 0; 7]].
Proof. reflexivity. Qed.

Example scaled_row :
  preprocess_features Demo.cast
    (init (fun _ => inr [[1]]) (fun a => inr (map (map (fun x => x / 2)) a))
       ["flow_duration"; "Header_Length"; "Rate"] ["BenignTraffic"] (8 # 10))
    Demo.sample
  = ([[(3 # 2) / 2; 0 / 2; 7 / 2]], []).
Proof. reflexivity. Qed.


Lemma scaler_failure_fallback_witness :
  let row := [1 # 20; 17 # 20; 1 # 20; 1 # 20] in
  let self := Demo.detector_bad_scaler row in
  let e := Py.ValueError "X has 3 features, but StandardScaler is expecting 46 features as input." in
  let warning :=
    String.append
      "Aviso: Erro na normalização, usando dados sem normalização: "
      (Py.str e) in
  scaler self (features_df self Demo.sample) = inl e /\
  preprocess_features Demo.cast self Demo.sample = ([[3 # 2; 0; 7]], [warning]) /\
  exists self' r,
    predict Demo.cast self Demo.sample 12 "2024-05-01T10:00:00"
    = (self', [warning], inr r) /\
    all_probabilities r = row.
Proof.
  intros row self e warning.
  destruct (scaler_failure_fallback Demo.cast self Demo.sample 12
              "2024-05-01T10:00:00" e eq_refl) as [H1 H2].
  split; [reflexivity |]. split; [exact H1 |].
  apply (H2 row []); [reflexivity | discriminate | vm_compute; lia].
Defined.

(** C3, as stated, fails on a detector that has made no prediction:
    total_predictions is 0 and the dictionary returned has no 'attack_rate'
    entry at all. *)
Lemma get_statistics_fresh_has_no_attack_rate :
  let self := Demo.detector_with [1 # 10; 2 # 5; 2 # 5; 1 # 10] in
  total_predictions self = 0%Z /\
  ~ (exists m v, get_statistics self = inr m /\ m !! "attack_rate" = Some v).
Proof.
  intros self. split; [reflexivity |].
  intros (m & v & Hm & Hv). cbn in Hm. injection Hm as <-.
  by rewrite lookup_empty in Hv.
Qed.

Lemma get_statistics_guarded_witness :
  let self :=
    run_ops Demo.cast (Demo.detector_with [1 # 20; 17 # 20; 1 # 20; 1 # 20])
      [OpPredict Demo.sample 12 "2024-05-01T10:00:00";
       OpPredict Demo.sample 8 "2024-05-01T10:00:01"] in
  exists m,
    get_statistics self = inr m /\
    m !! "attack_rate" = Some (VFloat (inject_Z 2 / inject_Z 2)) /\
    m !! "throughput_per_second" = Some (VFloat (inject_Z 1000 / (20 / 2))).
Proof.
  intros self.
  destruct (get_statistics_guarded Demo.cast self)
    as (m & Hm & _ & _ & _ & Hpos & _ & Hthr).
  exists m. split; [exact Hm |]. split.
  - apply Hpos; [discriminate | reflexivity].
  - apply Hthr; discriminate.
Defined.

(** C5, at a verdict reached through the 0.9 override alone.  The class
    "Recon-PingSweep" is a low-threat class without the DoS substring and
    the confidence is 0.95: the verdict is the [numpy.bool_] of the last
    comparison.  The CRITICAL notice is written, [json.dumps] raises, the
    alert log stays empty and an error line is written after the notice. *)
Theorem override_attack_not_logged :
  let self := Demo.monitor_with [1 # 100; 1 # 100; 19 # 20; 3 # 100] in
  let self' :=
    process_item Demo.cast Demo.fmt self Demo.sample 12 "2024-05-01T10:00:00" in
  exists r,
    results self' = [r] /\
    predicted_class r = "Recon-PingSweep" /\
    confidence r = 19 # 20 /\
    is_attack r = Py.NpBool true /\
    log_file self' = [] /\
    report self'
    = [notice Demo.fmt CRITICAL r;
       error_msg (Py.TypeError "Object of type bool_ is not JSON serializable")].
Proof. intros self self'. eexists. repeat split. Qed.

(** The sibling path: a DDoS class at 0.85 is an attack through the second
    criterion, the verdict is a builtin [bool], and the line is logged. *)
Example ddos_attack_logged :
  let self := Demo.monitor_with [1 # 20; 17 # 20; 1 # 20; 1 # 20] in
  let self' :=
    process_item Demo.cast Demo.fmt self Demo.sample 12 "2024-05-01T10:00:00" in
  exists r,
    results self' = [r] /\
    predicted_class r = "DDoS-ICMP_Flood" /\
    is_attack r = Py.PyBool true /\
    log_file self' = [JsonObject r] /\
    report self' = [notice Demo.fmt CRITICAL r].
Proof. intros self self'. eexists. repeat split. Qed.

(* ===================================================================== *)
(* Further properties of the detector                                    *)
(* ===================================================================== *)

Section DetectorOutcome.

Variable astype_float32 : Q -> Q.

Abbreviation predict' := (predict astype_float32).
Abbreviation preprocess' := (preprocess_features astype_float32).

(** X1.  [predict] returns a result exactly when the model answers with a
    batch whose first row is not empty and whose argmax is a position of
    [classes]; in every other case it raises, and the detector is then
    exactly as before the call (nothing is counted). *)
Theorem predict_outcome self features_dict inference_time now :
  ((exists self' printed r,
      predict' self features_dict inference_time now = (self', printed, inr r))
   <->
   (exists row rest idx,
      session self (preprocess' self features_dict).1 = inr (row :: rest) /\
      row <> [] /\ Np.argmax row = inr idx /\
      (idx < length (classes self))%nat))
  /\ (forall self' printed e,
        predict' self features_dict inference_time now = (self', printed, inl e) ->
        self' = self /\ printed = (preprocess' self features_dict).2).
Proof.
  split; [split |].
  - intros (self' & printed & r & Hp).
    apply predict_completed in Hp
      as (rest & row & idx & Hs & _ & Hidx & Hc & _).
    exists row, rest, idx. repeat split; try done.
    + intros ->. discriminate.
    + by eapply lookup_lt_Some.
  - intros (row & rest & idx & Hs & Hne & Hidx & Hlt).
    destruct (argmax_first_max row idx Hidx) as (c & Hc & _).
    destruct (lookup_lt_is_Some_2 (classes self) idx Hlt) as (cls & Hcls).
    unfold predict. destruct (preprocess' self features_dict) as [features out].
    cbn [fst] in Hs. rewrite Hs, Hidx, Hcls, Hc. eauto.
  - intros self' printed e. unfold predict.
    destruct (preprocess' self features_dict) as [features out]. cbn [snd].
    destruct (session self features) as [e' | [| row rest]];
      [by intros [= <- <- _] | by intros [= <- <- _] |].
    destruct (Np.argmax row) as [e' | idx]; [by intros [= <- <- _] |].
    destruct (classes self !! idx) as [c |]; [| by intros [= <- <- _]].
    destruct (row !! idx) as [conf |]; [discriminate | by intros [= <- <- _]].
Qed.

Lemma run_op_counters_ok self op :
  counters_ok self -> counters_ok (run_op astype_float32 self op).
Proof.
  intros (Hlen & Hlo & Hhi).
  destruct op as [fd | fd t now |]; cbn [run_op]; try done.
  destruct (predict' self fd t now) as [[self' printed] [e | r]] eqn:Hp; cbn [fst].
  - apply predict_raised in Hp. by subst.
  - apply predict_step in Hp as (Ht & Hi & Ha). unfold counters_ok.
    rewrite Ht, Hi, Ha, length_app. cbn.
    destruct (Py.truthy (is_attack r)); lia.
Qed.

Lemma run_ops_counters_ok ops self :
  counters_ok self -> counters_ok (run_ops astype_float32 self ops).
Proof.
  revert self. induction ops as [| op ops IH]; intros self Hok; [done |].
  cbn. by apply IH, run_op_counters_ok.
Qed.

(** X2.  On a detector created by [__init__], after any sequence of calls,
    total_predictions is the number of recorded latencies and
    0 <= attack_detections <= total_predictions. *)
Theorem counters_from_init session scaler feature_names classes threshold ops :
  let self :=
    run_ops astype_float32
      (init session scaler feature_names classes threshold) ops in
  total_predictions self = Z.of_nat (length (inference_times self)) /\
  (0 <= attack_detections self <= total_predictions self)%Z.
Proof.
  apply run_ops_counters_ok. unfold counters_ok. cbn. lia.
Qed.

End DetectorOutcome.

Section Snapshot.

Variable astype_float32 : Q -> Q.

Lemma max2_ge x y : x <= Np.max2 x y /\ y <= Np.max2 x y.
Proof.
  unfold Np.max2. destruct (Py.gtb y x) eqn:E.
  - apply gtb_lt in E. split; [by apply Qlt_le_weak | apply Qle_refl].
  - apply gtb_false_le in E. split; [apply Qle_refl | done].
Qed.

Lemma min2_le x y : Np.min2 x y <= x /\ Np.min2 x y <= y.
Proof.
  unfold Np.min2. destruct (Py.gtb x y) eqn:E.
  - apply gtb_lt in E. split; [by apply Qlt_le_weak | apply Qle_refl].
  - apply gtb_false_le in E. split; [apply Qle_refl | done].
Qed.

Lemma max_upper x r :
  Np.max x r ∈ x :: r /\ forall y, y ∈ x :: r -> y <= Np.max x r.
Proof.
  unfold Np.max. revert x. induction r as [| z r IH]; intros x; cbn.
  - split; [left |]. intros y Hy. apply list_elem_of_singleton in Hy as ->.
    apply Qle_refl.
  - destruct (IH (Np.max2 x z)) as [Hin Hub].
    destruct (max2_ge x z) as [Hx Hz]. split.
    + apply elem_of_cons in Hin as [Hin | Hin]; [| by do 2 right].
      rewrite Hin. unfold Np.max2. destruct (Py.gtb z x); [right; left | left].
    + intros y Hy. apply elem_of_cons in Hy as [-> | Hy].
      { apply Qle_trans with (Np.max2 x z); [done | apply Hub; left]. }
      apply elem_of_cons in Hy as [-> | Hy].
      { apply Qle_trans with (Np.max2 x z); [done | apply Hub; left]. }
      apply Hub. by right.
Qed.

Lemma min_lower x r :
  Np.min x r ∈ x :: r /\ forall y, y ∈ x :: r -> Np.min x r <= y.
Proof.
  unfold Np.min. revert x. induction r as [| z r IH]; intros x; cbn.
  - split; [left |]. intros y Hy. apply list_elem_of_singleton in Hy as ->.
    apply Qle_refl.
  - destruct (IH (Np.min2 x z)) as [Hin Hlb].
    destruct (min2_le x z) as [Hx Hz]. split.
    + apply elem_of_cons in Hin as [Hin | Hin]; [| by do 2 right].
      rewrite Hin. unfold Np.min2. destruct (Py.gtb x z); [right; left | left].
    + intros y Hy. apply elem_of_cons in Hy as [-> | Hy].
      { apply Qle_trans with (Np.min2 x z); [apply Hlb; left | done]. }
      apply elem_of_cons in Hy as [-> | Hy].
      { apply Qle_trans with (Np.min2 x z); [apply Hlb; left | done]. }
      apply Hlb. by right.
Qed.

Lemma sum_bounds (a : list Q) lo hi :
  (forall y, y ∈ a -> lo <= y <= hi) ->
  inject_Z (Z.of_nat (length a)) * lo <= Np.sum a /\
  Np.sum a <= inject_Z (Z.of_nat (length a)) * hi.
Proof.
  induction a as [| y a IH]; intros Hall.
  - unfold Np.sum. cbn [length fold_right].
    change (inject_Z (Z.of_nat 0)) with 0. split; lra.
  - destruct IH as [IH1 IH2]; [intros z Hz; apply Hall; by right |].
    destruct (Hall y) as [Hy1 Hy2]; [left |].
    unfold Np.sum in *. cbn [length fold_right].
    rewrite Nat2Z.inj_succ, <- Z.add_1_r, inject_Z_plus.
    change (inject_Z 1) with 1. split; lra.
Qed.

Lemma mean_bounds (a : list Q) lo hi :
  a <> [] ->
  (forall y, y ∈ a -> lo <= y <= hi) ->
  lo <= Np.mean a <= hi.
Proof.
  intros Hne Hall. destruct (sum_bounds a lo hi Hall) as [H1 H2].
  assert (Hn : 0 < inject_Z (Z.of_nat (length a))).
  { change 0 with (inject_Z 0). rewrite <- Zlt_Qlt. destruct a; [done | cbn; lia]. }
  unfold Np.mean. split.
  - apply Qle_shift_div_l; [done |]. by rewrite Qmult_comm.
  - apply Qle_shift_div_r; [done |]. by rewrite Qmult_comm.
Qed.

(** X3.  On a detector created by [__init__], once a prediction has been
    recorded, [get_statistics] returns a dictionary with exactly the eight
    documented keys; 'total_predictions' is the number of recorded
    latencies and 'attack_rate' is a fraction between 0 and 1. *)
Theorem get_statistics_snapshot session scaler feature_names classes
    threshold ops :
  let self :=
    run_ops astype_float32
      (init session scaler feature_names classes threshold) ops in
  inference_times self <> [] ->
  exists m q,
    get_statistics self = inr m /\
    dom m
    = list_to_set
        ["total_predictions"; "attack_detections"; "attack_rate";
         "avg_inference_time_ms"; "max_inference_time_ms";
         "min_inference_time_ms"; "throughput_per_second";
         "confidence_threshold"] /\
    m !! "total_predictions"
    = Some (VInt (Z.of_nat (length (inference_times self)))) /\
    m !! "attack_rate" = Some (VFloat q) /\
    0 <= q <= 1.
Proof.
  intros self Hne.
  assert (Hok : counters_ok self).
  { apply run_ops_counters_ok. unfold counters_ok. cbn. lia. }
  destruct Hok as (Hlen & Hlo & Hhi).
  assert (Hpos : (0 < total_predictions self)%Z).
  { rewrite Hlen. destruct (inference_times self); [done | cbn; lia]. }
  destruct (attack_rate_total self) as (rate & Hr & _ & Hrate).
  specialize (Hrate Hpos). unfold get_statistics.
  destruct (inference_times self) as [| t ts] eqn:Hts; [done |].
  rewrite Hr, Hrate. eexists _, _. split; [reflexivity |].
  split; [| split; [| split; [reflexivity |]]].
  - rewrite dom_list_to_map_L. reflexivity.
  - by rewrite <- Hlen.
  - assert (Ht : 0 < inject_Z (total_predictions self)).
    { change 0 with (inject_Z 0). by rewrite <- Zlt_Qlt. }
    split.
    + apply Qle_shift_div_l; [done |]. rewrite Qmult_0_l.
      change 0 with (inject_Z 0). by rewrite <- Zle_Qle.
    + apply Qle_shift_div_r; [done |]. rewrite Qmult_1_l. by rewrite <- Zle_Qle.
Qed.

(** X4.  Whenever a latency has been recorded, the snapshot's minimum and
    maximum latencies are recorded latencies, every recorded latency lies
    between them, and so does the reported average. *)
Theorem get_statistics_latency_bounds self :
  inference_times self <> [] ->
  exists m lo avg hi,
    get_statistics self = inr m /\
    m !! "min_inference_time_ms" = Some (VFloat lo) /\
    m !! "avg_inference_time_ms" = Some (VFloat avg) /\
    m !! "max_inference_time_ms" = Some (VFloat hi) /\
    lo ∈ inference_times self /\ hi ∈ inference_times self /\
    (forall t, t ∈ inference_times self -> lo <= t <= hi) /\
    lo <= avg <= hi.
Proof.
  intros Hne. destruct (attack_rate_total self) as (rate & Hr & _).
  unfold get_statistics.
  destruct (inference_times self) as [| t ts] eqn:Hts; [done |].
  rewrite Hr. destruct (max_upper t ts) as [Hmax_in Hmax].
  destruct (min_lower t ts) as [Hmin_in Hmin].
  exists (list_to_map
    [("total_predictions", VInt (total_predictions self));
     ("attack_detections", VInt (attack_detections self));
     ("attack_rate", rate);
     ("avg_inference_time_ms", VFloat (Np.mean (t :: ts)));
     ("max_inference_time_ms", VFloat (Np.max t ts));
     ("min_inference_time_ms", VFloat (Np.min t ts));
     ("throughput_per_second", np_rtruediv 1000 (Np.mean (t :: ts)));
     ("confidence_threshold", VFloat (confidence_threshold self))]),
    (Np.min t ts), (Np.mean (t :: ts)), (Np.max t ts).
  split; [reflexivity |]. do 3 (split; [reflexivity |]).
  split; [done |]. split; [done |].
  assert (Hall : forall y, y ∈ t :: ts -> Np.min t ts <= y <= Np.max t ts).
  { intros y Hy. split; [by apply Hmin | by apply Hmax]. }
  split; [exact Hall |]. by apply mean_bounds.
Qed.

End Snapshot.

Section VerdictShape.

(** X5.  The verdict is monotone in the confidence: a class flagged at
    some confidence is flagged at every higher confidence. *)
Theorem critical_attack_monotone self predicted_class conf conf' :
  Py.truthy (critical_attack self predicted_class conf) = true ->
  conf <= conf' ->
  Py.truthy (critical_attack self predicted_class conf') = true.
Proof.
  intros Hatt Hle.
  destruct (benign_label predicted_class) eqn:Hb.
  - unfold critical_attack in Hatt. by rewrite Hb in Hatt.
  - rewrite !critical_attack_truthy in * by done.
    assert (Hup : forall x, Py.gtb conf x = true -> Py.gtb conf' x = true).
    { intros x Hx. apply gtb_lt in Hx. apply gtb_lt.
      by apply Qlt_le_trans with conf. }
    rewrite !orb_true_iff, !andb_true_iff in *.
    destruct Hatt as [[[H1 H2] | [H1 H2]] | H]; auto.
Qed.

(** X6.  With a threshold of 0.9 or more, the class lists play no part:
    a class that is not benign is flagged exactly when its confidence is
    strictly above 0.9, so that a threshold above 0.9 is never applied. *)
Theorem threshold_capped_at_override self predicted_class conf :
  benign_label predicted_class = false ->
  9 # 10 <= confidence_threshold self ->
  Py.truthy (critical_attack self predicted_class conf) = Py.gtb conf (9 # 10).
Proof.
  intros Hb Hthr. rewrite critical_attack_truthy by done.
  destruct (Py.gtb conf (9 # 10)) eqn:E; [by rewrite orb_true_r |].
  assert (Hlow : Py.gtb conf (confidence_threshold self) = false).
  { apply gtb_false_le. apply gtb_false_le in E. by apply Qle_trans with (9 # 10). }
  by rewrite Hlow.
Qed.

(** X7.  Raising the threshold never adds an attack: of two detectors with
    the same class lists, the one with the higher threshold flags no
    prediction that the other does not flag. *)
Theorem critical_attack_antitone self1 self2 predicted_class conf :
  classes self1 = classes self2 ->
  low_threat_classes self1 = low_threat_classes self2 ->
  confidence_threshold self1 <= confidence_threshold self2 ->
  Py.truthy (critical_attack self2 predicted_class conf) = true ->
  Py.truthy (critical_attack self1 predicted_class conf) = true.
Proof.
  intros Hc Hl Hthr Hatt.
  destruct (benign_label predicted_class) eqn:Hb.
  - unfold critical_attack in Hatt. by rewrite Hb in Hatt.
  - rewrite !critical_attack_truthy in * by done.
    unfold ddos_classes in *. rewrite Hc, Hl.
    assert (Hup : Py.gtb conf (confidence_threshold self2) = true ->
                  Py.gtb conf (confidence_threshold self1) = true).
    { intros Hx. apply gtb_lt in Hx. apply gtb_lt.
      by apply Qle_lt_trans with (confidence_threshold self2). }
    rewrite !orb_true_iff, !andb_true_iff in *.
    destruct Hatt as [[[H1 H2] | [H1 H2]] | H]; auto.
Qed.

Lemma contains_ddos_dos (s : string) :
  Py.contains "DDoS" s = true -> Py.contains "DoS" s = true.
Proof.
  induction s as [| c s IH]; [done |].
  cbn [Py.contains]. intros H. apply orb_true_iff in H as [H | H].
  - apply orb_true_iff. right.
    cbn [String.prefix] in H. destruct (Ascii.ascii_dec _ c); [| done].
    destruct s as [| c' s]; [done |].
    cbn [Py.contains]. apply orb_true_iff. left. exact H.
  - apply orb_true_iff. right. by apply IH.
Qed.

(** X8.  The test for "DDoS" is subsumed by the test for "DoS": the list
    of DDoS classes is the list of the labels of [classes] that contain
    "DoS", in the order of [classes]. *)
Theorem ddos_classes_dos self :
  ddos_classes self = List.filter (Py.contains "DoS") (classes self).
Proof.
  unfold ddos_classes. induction (classes self) as [| c l IH]; [done |].
  cbn [List.filter]. rewrite IH.
  destruct (Py.contains "DoS" c) eqn:E; [by rewrite orb_true_r |].
  destruct (Py.contains "DDoS" c) eqn:E'; [| done].
  apply contains_ddos_dos in E'. congruence.
Qed.

End VerdictShape.

Section InputKeys.

Variable astype_float32 : Q -> Q.

Lemma feature_values_agree names (fd fd' : gmap string Q)
    (acc : list (string * Q)) :
  (forall n, n ∈ names -> fd !! n = fd' !! n) ->
  fold_left (fun acc n => dict_set n (get_feature fd n) acc) names acc
  = fold_left (fun acc n => dict_set n (get_feature fd' n) acc) names acc.
Proof.
  revert acc. induction names as [| n names IH]; intros acc Hagree; [done |].
  cbn. unfold get_feature at 2 4. rewrite (Hagree n) by left.
  apply IH. intros k Hk. apply Hagree. by right.
Qed.

(** X9.  Only the entries of the input mapping under the names of
    [feature_names] are read: two mappings that agree on these names give
    the same preprocessed array, the same printed lines and the same
    outcome of [predict], whatever other keys they hold. *)
Theorem predict_ignores_other_keys self (features_dict features_dict' : gmap string Q)
    inference_time now :
  (forall n, n ∈ feature_names self -> features_dict !! n = features_dict' !! n) ->
  preprocess_features astype_float32 self features_dict
  = preprocess_features astype_float32 self features_dict' /\
  predict astype_float32 self features_dict inference_time now
  = predict astype_float32 self features_dict' inference_time now.
Proof.
  intros Hagree.
  assert (Hpre : preprocess_features astype_float32 self features_dict
                 = preprocess_features astype_float32 self features_dict').
  { unfold preprocess_features, features_df, feature_values.
    by rewrite (feature_values_agree _ _ _ [] Hagree). }
  split; [exact Hpre |]. unfold predict. by rewrite Hpre.
Qed.

End InputKeys.

Section WorkerLoop.

Variable astype_float32 : Q -> Q.
Variable format_3f : Q -> string.

Abbreviation predict' := (predict astype_float32).
Abbreviation process_item' := (process_item astype_float32 format_3f).
Abbreviation iteration' := (iteration astype_float32 format_3f).
Abbreviation process_data_stream' :=
  (process_data_stream astype_float32 format_3f).

Lemma save_result_frame self message :
  detector (save_result self message) = detector self /\
  data_queue (save_result self message) = data_queue self /\
  running (save_result self message) = running self.
Proof. unfold save_result. by destruct (result_file self). Qed.

(** What [process_item] leaves alone, and what it does to the detector
    and to the collected results. *)
Lemma process_item_frame self features_dict inference_time now :
  let outcome := predict' (detector self) features_dict inference_time now in
  let self' := process_item' self features_dict inference_time now in
  data_queue self' = data_queue self /\
  running self' = running self /\
  detector self' = outcome.1.1 /\
  results self'
  = results self ++ match outcome.2 with inr r => [r] | inl _ => [] end.
Proof.
  cbn zeta. unfold process_item.
  destruct (predict' (detector self) features_dict inference_time now)
    as [[d printed] [e | r]]; cbn [fst snd].
  - destruct (save_result_frame (after_predict self d printed) (error_msg e))
      as (H1 & H2 & H3).
    destruct (save_result_report (after_predict self d printed) (error_msg e))
      as (_ & _ & H4).
    rewrite H1, H2, H3, H4. cbn. by rewrite app_nil_r.
  - set (self1 := append_result (after_predict self d printed) r).
    assert (Hsave : forall msg,
      data_queue (save_result self1 msg) = data_queue self /\
      running (save_result self1 msg) = running self /\
      detector (save_result self1 msg) = d /\
      results (save_result self1 msg) = results self ++ [r]).
    { intros msg. destruct (save_result_frame self1 msg) as (H1 & H2 & H3).
      destruct (save_result_report self1 msg) as (_ & _ & H4).
      by rewrite H1, H2, H3, H4. }
    destruct (Py.truthy (is_attack r)).
    + unfold log_detection. destruct (json_dumps r) as [e | line].
      * destruct (save_result_frame
                    (save_result self1 (notice format_3f CRITICAL r))
                    (error_msg e)) as (H1 & H2 & H3).
        destruct (save_result_report
                    (save_result self1 (notice format_3f CRITICAL r))
                    (error_msg e)) as (_ & _ & H4).
        rewrite H1, H2, H3, H4. apply Hsave.
      * cbn. apply Hsave.
    + destruct (is_benign r); [apply Hsave |].
      destruct (Py.geb _ _); apply Hsave.
Qed.

(** The alert log after [process_item]: unchanged, or extended by the
    line of the result just produced, whose verdict is the builtin [True]. *)
Lemma process_item_log self features_dict inference_time now :
  let outcome := predict' (detector self) features_dict inference_time now in
  let self' := process_item' self features_dict inference_time now in
  log_file self' = log_file self \/
  exists r, outcome.2 = inr r /\ is_attack r = Py.PyBool true /\
            log_file self' = log_file self ++ [JsonObject r].
Proof.
  cbn zeta.
  destruct (predict' (detector self) features_dict inference_time now)
    as [[d printed] [e | r]] eqn:Hp; cbn [snd].
  - left. unfold process_item. rewrite Hp.
    by destruct (save_result_report (after_predict self d printed) (error_msg e))
      as (_ & -> & _).
  - destruct (process_item_routing astype_float32 format_3f _ _ _ _ _ _ _ Hp)
      as [_ Hroute].
    destruct (is_attack r) as [[|] | [|]] eqn:Hatt.
    + right. exists r. by destruct Hroute as [_ ->].
    + left. by destruct Hroute as [-> _].
    + left. by destruct Hroute as [_ ->].
    + left. by destruct Hroute as [-> _].
Qed.

Lemma iteration_empty self inference_time now :
  data_queue self = [] -> iteration' self inference_time now = self.
Proof. intros Hq. unfold iteration, queue_get. by rewrite Hq. Qed.

Lemma stream_empty_queue self clock :
  data_queue self = [] -> process_data_stream' self clock = self.
Proof.
  intros Hq. induction clock as [| [t now] clock IH]; [done |].
  cbn. destruct (running self); [| done]. by rewrite iteration_empty.
Qed.

(** X10.  When [predict] raises on an item, the worker writes exactly one
    line, "Erro no processamento: " followed by the text of the exception,
    to the report stream; no result is collected, the alert log, the
    detector, the queue and the running flag are as before, so the loop
    goes on with the next item. *)
Theorem process_item_error self features_dict inference_time now d printed e :
  predict' (detector self) features_dict inference_time now
  = (d, printed, inl e) ->
  let self' := process_item' self features_dict inference_time now in
  report self'
  = report (after_predict self d printed)
    ++ [String.append "Erro no processamento: " (Py.str e)] /\
  results self' = results self /\
  log_file self' = log_file self /\
  detector self' = detector self /\
  data_queue self' = data_queue self /\
  running self' = running self.
Proof.
  intros Hp self'. subst self'. unfold process_item. rewrite Hp.
  apply predict_raised in Hp. subst d.
  destruct (save_result_report (after_predict self (detector self) printed)
              (error_msg e)) as (H1 & H2 & H3).
  destruct (save_result_frame (after_predict self (detector self) printed)
              (error_msg e)) as (H4 & H5 & H6).
  by rewrite H1, H2, H3, H4, H5, H6.
Qed.

(** X11.  The worker changes nothing for as long as the queue is empty,
    and nothing after [stop_monitoring], however many items are still
    queued: these are never processed. *)
Theorem worker_idle self clock :
  (data_queue self = [] -> process_data_stream' self clock = self) /\
  process_data_stream' (stop_monitoring self) clock = stop_monitoring self.
Proof.
  split.
  - apply stream_empty_queue.
  - by destruct clock as [| [t now] clock].
Qed.

(** A running worker given at least as many turns as there are queued
    items empties the queue, in queue order. *)
Lemma stream_drains_queue self clock :
  running self = true ->
  (length (data_queue self) <= length clock)%nat ->
  let self' := process_data_stream' self clock in
  let run := predict_each astype_float32 (detector self) (data_queue self) clock in
  data_queue self' = [] /\
  detector self' = run.1 /\
  results self' = results self ++ run.2.
Proof.
  revert self. induction clock as [| [t now] clock IH]; intros self Hrun Hlen.
  - cbn in Hlen. destruct (data_queue self) eqn:Hq; [| cbn in Hlen; lia].
    cbn. rewrite Hq. cbn. by rewrite app_nil_r.
  - cbn [process_data_stream]. rewrite Hrun.
    destruct (data_queue self) as [| fd q] eqn:Hq.
    + rewrite iteration_empty, stream_empty_queue by done.
      cbn. by rewrite Hq, app_nil_r.
    + unfold iteration, queue_get. rewrite Hq.
      match goal with
      | |- context [process_item _ _ ?m fd t now] => set (popped := m)
      end.
      pose proof (process_item_frame popped fd t now) as (F1 & F2 & F3 & F4).
      cbn [data_queue running detector results popped] in F1, F2, F3, F4.
      set (s1 := process_item' popped fd t now) in *.
      destruct (IH s1) as (I1 & I2 & I3).
      { by rewrite F2. }
      { rewrite F1. cbn in Hlen. lia. }
      cbn zeta. cbn [predict_each].
      rewrite F1, F3 in *. rewrite F4 in I3.
      destruct (predict' (detector self) fd t now) as [[d printed] outcome].
      cbn [fst snd] in *.
      destruct (predict_each astype_float32 d q clock) as [d'' rs].
      cbn [fst snd] in *. repeat split; try done.
      rewrite I3, <- app_assoc. by destruct outcome.
Qed.

Lemma add_data_all self items :
  let queued := fold_left add_data items self in
  data_queue queued = data_queue self ++ items /\
  detector queued = detector self /\
  running queued = running self /\
  results queued = results self /\
  log_file queued = log_file self.
Proof.
  cbn zeta. revert self. induction items as [| fd items IH]; intros self; cbn.
  - by rewrite app_nil_r.
  - destruct (IH (add_data self fd)) as (H1 & H2 & H3 & H4 & H5).
    rewrite H1, H2, H3, H4, H5. cbn. by rewrite <- app_assoc.
Qed.

Lemma predict_each_length items clock d :
  (length (predict_each astype_float32 d items clock).2 <= length items)%nat.
Proof.
  revert d clock. induction items as [| fd items IH]; intros d clock; [done |].
  destruct clock as [| [t now] clock]; [cbn; lia |]. cbn [predict_each].
  destruct (predict' d fd t now) as [[d' printed] outcome].
  specialize (IH d' clock).
  destruct (predict_each astype_float32 d' items clock) as [d'' rs].
  cbn [snd] in *. destruct outcome; cbn; lia.
Qed.

(** X12.  Items put on an empty queue with [add_data] are processed in
    the order in which they were put: a running worker given at least one
    turn per item empties the queue, hands the items to [predict] one by
    one in that order, and appends the results of the completed calls to
    [results] in the same order, at most one per item. *)
Theorem enqueue_then_drain self items clock :
  running self = true ->
  data_queue self = [] ->
  (length items <= length clock)%nat ->
  let queued := fold_left add_data items self in
  let self' := process_data_stream' queued clock in
  let run := predict_each astype_float32 (detector self) items clock in
  data_queue self' = [] /\
  detector self' = run.1 /\
  results self' = results self ++ run.2 /\
  (length run.2 <= length items)%nat.
Proof.
  intros Hrun Hq Hlen queued self' run.
  destruct (add_data_all self items) as (A1 & A2 & A3 & A4 & _).
  fold queued in A1, A2, A3, A4. rewrite Hq in A1. cbn in A1.
  destruct (stream_drains_queue queued clock) as (D1 & D2 & D3).
  { by rewrite A3. }
  { by rewrite A1. }
  rewrite A1, A2 in D2, D3. rewrite A4 in D3.
  repeat split; try done. apply predict_each_length.
Qed.

Lemma process_item_log_sound self features_dict inference_time now :
  log_sound self ->
  log_sound (process_item' self features_dict inference_time now).
Proof.
  intros Hs line Hline.
  pose proof (process_item_frame self features_dict inference_time now)
    as (_ & _ & _ & Hres).
  pose proof (process_item_log self features_dict inference_time now) as Hlog.
  cbn zeta in Hres, Hlog. rewrite Hres.
  destruct Hlog as [Hlog | (r & Hr & Hatt & Hlog)]; rewrite Hlog in Hline.
  - destruct (Hs line Hline) as (r & -> & Hin & Hatt).
    exists r. repeat split; [| done]. apply elem_of_app. by left.
  - apply elem_of_app in Hline as [Hline | Hline].
    + destruct (Hs line Hline) as (r' & -> & Hin & Hatt').
      exists r'. repeat split; [| done]. apply elem_of_app. by left.
    + apply list_elem_of_singleton in Hline as ->. exists r.
      repeat split; [| done]. rewrite Hr. apply elem_of_app. right. left.
Qed.

(** X13.  The worker keeps the alert log sound: if every line of the log
    encodes a collected result whose verdict is the builtin [True], so it
    is after any run of the worker.  In particular a result whose verdict
    is false is never logged. *)
Theorem worker_keeps_log_sound self clock :
  log_sound self -> log_sound (process_data_stream' self clock).
Proof.
  revert self. induction clock as [| [t now] clock IH]; intros self Hs; [done |].
  cbn. destruct (running self); [| done]. apply IH.
  unfold iteration, queue_get. destruct (data_queue self) as [| fd q]; [done |].
  by apply process_item_log_sound.
Qed.

Lemma attacks_of_app l1 l2 :
  attacks_of (l1 ++ l2) = attacks_of l1 ++ attacks_of l2.
Proof. unfold attacks_of. apply List.filter_app. Qed.

Lemma run_delta_nil self : run_delta self self [].
Proof. unfold run_delta. rewrite app_nil_r. cbn. repeat split; lia. Qed.

Lemma run_delta_trans s1 s2 s3 new1 new2 :
  run_delta s1 s2 new1 -> run_delta s2 s3 new2 ->
  run_delta s1 s3 (new1 ++ new2).
Proof.
  intros (R1 & T1 & A1 & L1) (R2 & T2 & A2 & L2). unfold run_delta.
  rewrite R2, R1, T2, T1, A2, A1, attacks_of_app, !length_app, <- app_assoc.
  repeat split; lia.
Qed.

Lemma process_item_delta self features_dict inference_time now :
  exists new,
    run_delta self (process_item' self features_dict inference_time now) new.
Proof.
  pose proof (process_item_frame self features_dict inference_time now)
    as (_ & _ & Hdet & Hres).
  pose proof (process_item_log self features_dict inference_time now) as Hlog.
  cbn zeta in Hdet, Hres, Hlog. unfold run_delta. rewrite Hdet, Hres.
  destruct (predict' (detector self) features_dict inference_time now)
    as [[d printed] [e | r]] eqn:Hp; cbn [fst snd] in *.
  - exists []. apply predict_raised in Hp. subst d.
    destruct Hlog as [-> | (r & Hr & _)]; [| done].
    cbn. repeat split; lia.
  - exists [r]. apply predict_step in Hp as (Ht & _ & Ha). rewrite Ht, Ha.
    unfold attacks_of. cbn [List.filter length].
    destruct Hlog as [-> | (r' & [= <-] & Hatt & ->)].
    + destruct (Py.truthy (is_attack r)); cbn; repeat split; lia.
    + rewrite Hatt, length_app. cbn. repeat split; lia.
Qed.

(** X14.  Over any run of the worker, the results collected by the
    monitor and the counters of the detector move together: the run
    appends some results; total_predictions grows by their number,
    attack_detections by the number of those with a true verdict (the
    attacks counted by the final report), and the alert log gains at most
    that many lines. *)
Theorem worker_counts self clock :
  let self' := process_data_stream' self clock in
  exists new,
    results self' = results self ++ new /\
    total_predictions (detector self')
    = (total_predictions (detector self) + Z.of_nat (length new))%Z /\
    attack_detections (detector self')
    = (attack_detections (detector self)
       + Z.of_nat (length (attacks_of new)))%Z /\
    (length (log_file self')
     <= length (log_file self) + length (attacks_of new))%nat.
Proof.
  cbn zeta. fold (run_delta self (process_data_stream' self clock)).
  revert self. induction clock as [| [t now] clock IH]; intros self.
  - exists []. apply run_delta_nil.
  - cbn [process_data_stream].
    destruct (running self); [| exists []; apply run_delta_nil].
    assert (Hstep : exists new, run_delta self (iteration' self t now) new).
    { unfold iteration, queue_get.
      destruct (data_queue self) as [| fd q]; [exists []; apply run_delta_nil |].
      apply (process_item_delta
               {| detector := detector self; log_file := log_file self;
                  result_file := result_file self; stdout := stdout self;
                  data_queue := q; running := running self;
                  results := results self |}). }
    destruct Hstep as (new1 & H1).
    destruct (IH (iteration' self t now)) as (new2 & H2).
    exists (new1 ++ new2). by eapply run_delta_trans.
Qed.

End WorkerLoop.

(* ===================================================================== *)
(* Properties of the final report                                        *)
(* ===================================================================== *)

Section FinalReport.

Variable astype_float32 : Q -> Q.
Variable format_2f : Q -> string.
Variable format_3f : Q -> string.
Variable str_float : Q -> string.

Abbreviation report_lines' := (report_lines format_2f format_3f str_float).
Abbreviation save_all_results' := (save_all_results format_2f format_3f str_float).

Lemma report_lines_nonempty self now :
  results self <> [] -> exists lines, report_lines' self now = inr lines.
Proof.
  intros Hne. unfold report_lines, int_truediv.
  destruct (results self) as [| r rs] eqn:Hres; [done |].
  cbn [length map py_min py_max].
  destruct (Z.eqb_spec (Z.of_nat (S (length rs))) 0) as [H | _]; [lia |].
  eauto.
Qed.

(** X15.  [save_all_results] never raises: the division by the number of
    results and the minimum and maximum of the confidences are only
    evaluated when there is a result.  Without a report file or without
    results it does nothing at all; otherwise it only replaces the
    contents of the report file. *)
Theorem save_all_results_total self now :
  exists self',
    save_all_results format_2f format_3f str_float self now = inr self' /\
    (result_file self = None \/ results self = [] -> self' = self) /\
    (is_Some (result_file self) -> results self <> [] ->
       exists lines,
         report_lines format_2f format_3f str_float self now = inr lines /\
         result_file self' = Some lines) /\
    detector self' = detector self /\
    log_file self' = log_file self /\
    stdout self' = stdout self /\
    data_queue self' = data_queue self /\
    running self' = running self /\
    results self' = results self.
Proof.
  unfold save_all_results.
  destruct (result_file self) as [old |] eqn:Hf.
  - destruct (results self) as [| r rs] eqn:Hres.
    + exists self. rewrite Hres. repeat split; try done.
    + destruct (report_lines_nonempty self now) as (lines & Hl);
        [by rewrite Hres |].
      rewrite Hl. eexists. split; [reflexivity |]. cbn.
      repeat split; try done.
      * intros [H | H]; done.
      * intros _ _. by exists lines.
  - exists self. repeat split; done.
Qed.

Lemma report_lines_fields self self' now :
  detector self' = detector self -> results self' = results self ->
  report_lines' self' now = report_lines' self now.
Proof. intros Hd Hr. unfold report_lines. by rewrite Hd, Hr. Qed.

(** X16.  The report file is opened for writing, not for appending: when a
    report file is configured and there is a result, a message saved
    before the final report leaves no trace in the file. *)
Theorem save_all_results_overwrites self message now :
  is_Some (result_file self) -> results self <> [] ->
  save_all_results format_2f format_3f str_float (save_result self message) now
  = save_all_results format_2f format_3f str_float self now.
Proof.
  intros [old Hf] Hne. unfold save_all_results.
  rewrite (report_lines_fields self (save_result self message) now);
    try (unfold save_result; by rewrite Hf).
  unfold save_result. rewrite Hf. cbn.
  destruct (results self); [done |]. done.
Qed.

Lemma geb_negb_gtb x y : Py.geb x y = negb (Py.gtb y x).
Proof. unfold Py.geb, Py.gtb. apply Z.leb_antisym. Qed.

(** X17.  The counts of low-confidence and of high-confidence predictions
    in the report add up to the number of results, and no result is
    counted in both. *)
Theorem confidence_counts_partition threshold results :
  (length (low_confidence_of threshold results)
   + length (high_confidence_of threshold results) = length results)%nat /\
  (forall r, r ∈ low_confidence_of threshold results ->
             r ∈ high_confidence_of threshold results -> False).
Proof.
  unfold low_confidence_of, high_confidence_of. split.
  - induction results as [| r rs IH]; [done |]. cbn [List.filter].
    rewrite geb_negb_gtb. destruct (Py.gtb threshold (confidence r)); cbn; lia.
  - intros r Hl Hh.
    apply list_elem_of_In, filter_In in Hl as [_ Hl].
    apply list_elem_of_In, filter_In in Hh as [_ Hh].
    rewrite geb_negb_gtb, Hl in Hh. done.
Qed.

(** X18.  The status printed for a sample in the final report is the
    severity of the notice that the worker wrote when it processed that
    sample. *)
Theorem report_status_matches_notice self features_dict inference_time now
    d printed r :
  predict astype_float32 (detector self) features_dict inference_time now
  = (d, printed, inr r) ->
  let self' :=
    process_item astype_float32 format_3f self features_dict inference_time now in
  exists rest,
    report self'
    = report (after_predict self d printed)
      ++ notice format_3f
           (sample_status (confidence_threshold (detector self')) r) r
         :: rest.
Proof.
  intros Hp self'.
  pose proof (process_item_frame astype_float32 format_3f self features_dict
                inference_time now) as (_ & _ & Hdet & _).
  pose proof (process_item_routing astype_float32 format_3f _ _ _ _ _ _ _ Hp)
    as [_ Hroute].
  cbn zeta in Hdet, Hroute. fold self' in Hdet, Hroute.
  rewrite Hp in Hdet. cbn [fst] in Hdet. rewrite Hdet.
  unfold sample_status.
  destruct (is_attack r) as [[|] | [|]]; cbn [Py.truthy].
  - exists []. by destruct Hroute as [-> _].
  - exists []. by destruct Hroute as [_ ->].
  - eexists. by destruct Hroute as [-> _].
  - exists []. by destruct Hroute as [_ ->].
Qed.

End FinalReport.

Section Breakdown.

Lemma count_get_set k k' v (d : list (string * Z)) :
  count_get k' (count_set k v d)
  = if decide (k' = k) then Some v else count_get k' d.
Proof.
  induction d as [| [k0 v0] d IH]; cbn.
  - destruct (String.eqb_spec k k'); case_decide; congruence.
  - destruct (String.eqb_spec k0 k) as [-> | Hne]; cbn.
    + destruct (String.eqb_spec k k'); case_decide; congruence.
    + destruct (String.eqb_spec k0 k'); [| exact IH].
      case_decide; congruence.
Qed.

Lemma count_set_keys k v (d : list (string * Z)) :
  map fst (count_set k v d)
  = if decide (k ∈ map fst d) then map fst d else map fst d ++ [k].
Proof.
  induction d as [| [k' v'] d IH]; cbn.
  - case_decide as H; [by apply elem_of_nil in H | done].
  - destruct (String.eqb_spec k' k) as [-> | Hne]; cbn.
    + rewrite decide_True; [done | left].
    + rewrite IH. case_decide as H1; case_decide as H2; try done.
      * exfalso. apply H2. by right.
      * exfalso. apply elem_of_cons in H2 as [-> | H2]; done.
Qed.

Lemma count_set_sum k (d : list (string * Z)) :
  fold_right Z.add 0%Z
    (map snd (count_set k (default 0%Z (count_get k d) + 1)%Z d))
  = (fold_right Z.add 0%Z (map snd d) + 1)%Z.
Proof.
  induction d as [| [k' v'] d IH]; cbn; [lia |].
  destruct (String.eqb_spec k' k) as [-> | Hne]; cbn; [lia |].
  rewrite IH. lia.
Qed.

Lemma count_get_elem k v (d : list (string * Z)) :
  NoDup (map fst d) -> ((k, v) ∈ d <-> count_get k d = Some v).
Proof.
  induction d as [| [k' v'] d IH]; cbn; intros Hnd.
  - split; [intros H; by apply elem_of_nil in H | done].
  - apply NoDup_cons in Hnd as [Hk' Hnd].
    destruct (String.eqb_spec k' k) as [-> | Hne].
    + split.
      * intros H. apply elem_of_cons in H as [[= ->] | H]; [done |].
        exfalso. apply Hk'. apply list_elem_of_fmap. by exists (k, v).
      * intros [= ->]. left.
    + rewrite <- (IH Hnd). split.
      * intros H. apply elem_of_cons in H as [[= -> ->] | H]; done.
      * intros H. by right.
Qed.

(** The number of results of class [k] in a list. *)
Abbreviation class_count k l :=
  (Z.of_nat (length (List.filter
                       (fun r => String.eqb (predicted_class r) k) l))).

Lemma attack_types_fold (l : list PredictionResult) (acc : list (string * Z)) :
  let d :=
    fold_left
      (fun acc attack =>
         count_set (predicted_class attack)
           (default 0%Z (count_get (predicted_class attack) acc) + 1)%Z acc)
      l acc in
  (NoDup (map fst acc) -> NoDup (map fst d)) /\
  (forall k,
     count_get k d
     = if decide (class_count k l = 0%Z) then count_get k acc
       else Some (default 0%Z (count_get k acc) + class_count k l)%Z) /\
  fold_right Z.add 0%Z (map snd d)
  = (fold_right Z.add 0%Z (map snd acc) + Z.of_nat (length l))%Z.
Proof.
  revert acc. induction l as [| r l IH]; intros acc; cbn zeta.
  - cbn. split; [done |]. split; [| lia]. intros k. by rewrite decide_True.
  - cbn [fold_left].
    destruct (IH (count_set (predicted_class r)
                    (default 0%Z (count_get (predicted_class r) acc) + 1)%Z acc))
      as (I1 & I2 & I3).
    cbn zeta in I1, I2, I3. split; [| split].
    + intros Hnd. apply I1. rewrite count_set_keys. case_decide as Hin; [done |].
      apply NoDup_app. repeat split; [done | | apply NoDup_singleton].
      intros x Hx Hx'. apply list_elem_of_singleton in Hx'. by subst.
    + intros k. rewrite I2, !count_get_set. cbn [List.filter].
      destruct (String.eqb_spec (predicted_class r) k) as [Heq | Hne];
        repeat case_decide; cbn [length default] in *;
        try congruence; try lia; try (f_equal; lia);
        subst k; unfold id; f_equal; lia.
    + rewrite I3, count_set_sum. cbn [length]. lia.
Qed.

Lemma insert_item_perm x l : insert_item x l ≡ₚ x :: l.
Proof.
  induction l as [| y l IH]; cbn; [done |].
  destruct (item_ltb x y); [done |]. rewrite IH. apply perm_swap.
Qed.

Lemma sorted_items_fold_perm l acc :
  fold_left (fun acc x => insert_item x acc) l acc ≡ₚ l ++ acc.
Proof.
  revert acc. induction l as [| x l IH]; intros acc; cbn; [done |].
  rewrite IH, insert_item_perm. by rewrite Permutation_middle.
Qed.

Lemma sorted_items_perm l : sorted_items l ≡ₚ l.
Proof. unfold sorted_items. by rewrite sorted_items_fold_perm, app_nil_r. Qed.

Lemma item_ltb_asym a b : item_ltb a b = true -> item_ltb b a = false.
Proof.
  unfold item_ltb. rewrite (String.compare_antisym a.1 b.1).
  destruct (String.compare b.1 a.1); cbn; try done.
  intros H. apply Z.ltb_lt in H. apply Z.ltb_ge. lia.
Qed.

Lemma insert_item_sorted x l :
  Sorted (fun a b => item_ltb b a = false) l ->
  Sorted (fun a b => item_ltb b a = false) (insert_item x l).
Proof.
  induction 1 as [| y l Hs IH Hhd]; cbn.
  - by repeat constructor.
  - destruct (item_ltb x y) eqn:E.
    + constructor; [by constructor |]. constructor. by apply item_ltb_asym.
    + constructor; [exact IH |].
      destruct l as [| z l]; cbn; [by constructor |].
      destruct (item_ltb x z); constructor; [done |].
      by inversion Hhd.
Qed.

Lemma sorted_items_sorted l :
  Sorted (fun a b => item_ltb b a = false) (sorted_items l).
Proof.
  unfold sorted_items.
  assert (H : forall acc, Sorted (fun a b => item_ltb b a = false) acc ->
    Sorted (fun a b => item_ltb b a = false)
      (fold_left (fun acc x => insert_item x acc) l acc)).
  { induction l as [| x l IH]; intros acc Hacc; cbn; [done |].
    by apply IH, insert_item_sorted. }
  apply H. constructor.
Qed.

(** With distinct labels, an order without inversions is the strictly
    increasing order of the labels. *)
Lemma sorted_distinct_labels (l : list (string * Z)) :
  NoDup (map fst l) ->
  Sorted (fun a b => item_ltb b a = false) l ->
  Sorted (fun a b => String.ltb a.1 b.1 = true) l.
Proof.
  induction 2 as [| y l Hs IH Hhd]; [constructor |].
  cbn in H. apply NoDup_cons in H as [Hy Hnd].
  constructor; [by apply IH |].
  destruct Hhd as [| z l Hyz]; constructor.
  assert (Hne : y.1 <> z.1).
  { intros Heq. apply Hy. cbn. rewrite Heq. left. }
  unfold item_ltb in Hyz. unfold String.ltb.
  rewrite (String.compare_antisym y.1 z.1).
  destruct (String.compare z.1 y.1) eqn:E; cbn; try done.
  apply String.compare_eq_iff in E. congruence.
Qed.

Lemma sum_counts_perm (l l' : list (string * Z)) :
  l ≡ₚ l' ->
  fold_right Z.add 0%Z (map snd l) = fold_right Z.add 0%Z (map snd l').
Proof. induction 1; cbn in *; lia. Qed.

(** X19.  The breakdown of critical attacks by class lists the labels in
    strictly increasing order, hence each at most once; a label appears
    with a count exactly when that count is the number of attack results
    of that class and is positive; and the counts add up to the number of
    attack results. *)
Theorem attack_type_breakdown results :
  let attacks := attacks_of results in
  let items := sorted_items (attack_types attacks) in
  Sorted (fun a b => String.ltb a.1 b.1 = true) items /\
  (forall k n, (k, n) ∈ items <-> n = class_count k attacks /\ (0 < n)%Z) /\
  fold_right Z.add 0%Z (map snd items) = Z.of_nat (length attacks).
Proof.
  intros attacks items.
  destruct (attack_types_fold attacks []) as (Hnd & Hget & Hsum).
  cbn zeta in Hnd, Hget, Hsum. fold (attack_types attacks) in Hnd, Hget, Hsum.
  specialize (Hnd (NoDup_nil_2 (A:=string))).
  pose proof (sorted_items_perm (attack_types attacks)) as Hperm.
  fold items in Hperm.
  assert (Hnd' : NoDup (map fst items)).
  { assert (Hp2 : map fst items ≡ₚ map fst (attack_types attacks))
      by (by apply Permutation_map).
    by rewrite Hp2. }
  split; [| split].
  - apply sorted_distinct_labels; [done | apply sorted_items_sorted].
  - intros k n. rewrite Hperm, (count_get_elem k n _ Hnd), Hget. cbn.
    case_decide as Hz; split; try done.
    + intros [-> Hpos]. lia.
    + intros [= <-]. lia.
    + intros [-> _]. by f_equal.
  - rewrite (sum_counts_perm _ _ Hperm), Hsum. cbn. lia.
Qed.

End Breakdown.

(* --------------------------------------------------------------------- *)
(* Instances of the further properties                                   *)
(* --------------------------------------------------------------------- *)

Lemma get_statistics_snapshot_witness :
  let self :=
    run_ops Demo.cast
      (init (fun _ => inr [[1 # 20; 17 # 20; 1 # 20; 1 # 20]]) (fun a => inr a)
         ["flow_duration"; "Header_Length"; "Rate"]
         ["BenignTraffic"; "DDoS-ICMP_Flood"; "Recon-PingSweep"; "VulnerabilityScan"]
         (8 # 10))
      [OpPredict Demo.sample 12 "2024-05-01T10:00:00"; OpStatistics] in
  inference_times self <> [] /\
  exists m q,
    get_statistics self = inr m /\
    dom m
    = list_to_set
        ["total_predictions"; "attack_detections"; "attack_rate";
         "avg_inference_time_ms"; "max_inference_time_ms";
         "min_inference_time_ms"; "throughput_per_second";
         "confidence_threshold"] /\
    m !! "total_predictions"
    = Some (VInt (Z.of_nat (length (inference_times self)))) /\
    m !! "attack_rate" = Some (VFloat q) /\
    0 <= q <= 1.
Proof.
  intros self.
  assert (Hne : inference_times self <> []) by (vm_compute; discriminate).
  split; [exact Hne |].
  exact (get_statistics_snapshot Demo.cast _ _ _ _ _ _ Hne).
Defined.

Lemma get_statistics_latency_bounds_witness :
  let self :=
    run_ops Demo.cast (Demo.detector_with [1 # 20; 17 # 20; 1 # 20; 1 # 20])
      [OpPredict Demo.sample 12 "2024-05-01T10:00:00";
       OpPredict Demo.sample 8 "2024-05-01T10:00:01";
       OpPredict Demo.sample 9 "2024-05-01T10:00:02"] in
  inference_times self = [12; 8; 9] /\
  exists m lo avg hi,
    get_statistics self = inr m /\
    m !! "min_inference_time_ms" = Some (VFloat lo) /\
    m !! "avg_inference_time_ms" = Some (VFloat avg) /\
    m !! "max_inference_time_ms" = Some (VFloat hi) /\
    lo ∈ inference_times self /\ hi ∈ inference_times self /\
    (forall t, t ∈ inference_times self -> lo <= t <= hi) /\
    lo <= avg <= hi.
Proof.
  intros self. split; [reflexivity |].
  apply (get_statistics_latency_bounds self). vm_compute. discriminate.
Defined.

Lemma critical_attack_monotone_witness :
  let self := Demo.detector_with [] in
  Py.truthy (critical_attack self "DDoS-ICMP_Flood" (17 # 20)) = true /\
  Py.truthy (critical_attack self "DDoS-ICMP_Flood" (19 # 20)) = true.
Proof.
  intros self. split; [reflexivity |].
  apply (critical_attack_monotone self "DDoS-ICMP_Flood" (17 # 20) (19 # 20));
    [reflexivity | discriminate].
Defined.

Lemma threshold_capped_at_override_witness :
  let self :=
    init (fun _ => inr [[]]) (fun a => inr a) [] ["DDoS-ICMP_Flood"] (19 # 20) in
  Py.truthy (critical_attack self "DDoS-ICMP_Flood" (93 # 100))
  = Py.gtb (93 # 100) (9 # 10).
Proof.
  intros self.
  apply (threshold_capped_at_override self "DDoS-ICMP_Flood" (93 # 100));
    [reflexivity | discriminate].
Defined.

Lemma critical_attack_antitone_witness :
  let self1 :=
    init (fun _ => inr [[]]) (fun a => inr a) [] ["DDoS-ICMP_Flood"] (7 # 10) in
  let self2 :=
    init (fun _ => inr [[]]) (fun a => inr a) [] ["DDoS-ICMP_Flood"] (8 # 10) in
  Py.truthy (critical_attack self2 "DDoS-ICMP_Flood" (17 # 20)) = true /\
  Py.truthy (critical_attack self1 "DDoS-ICMP_Flood" (17 # 20)) = true.
Proof.
  intros self1 self2. split; [reflexivity |].
  apply (critical_attack_antitone self1 self2 "DDoS-ICMP_Flood" (17 # 20));
    [reflexivity | reflexivity | discriminate | reflexivity].
Defined.

Lemma predict_ignores_other_keys_witness :
  let self := Demo.detector_with [1 # 20; 17 # 20; 1 # 20; 1 # 20] in
  let labelled := <["label" := 1]> Demo.sample in
  (forall n, n ∈ feature_names self -> labelled !! n = Demo.sample !! n) /\
  predict Demo.cast self labelled 12 "2024-05-01T10:00:00"
  = predict Demo.cast self Demo.sample 12 "2024-05-01T10:00:00".
Proof.
  intros self labelled.
  assert (H : forall n, n ∈ feature_names self -> labelled !! n = Demo.sample !! n).
  { intros n Hn. unfold labelled. apply lookup_insert_ne.
    intros <-. apply list_elem_of_In in Hn. cbn in Hn.
    by destruct Hn as [? | [? | [? | []]]]. }
  split; [exact H |].
  exact (proj2 (predict_ignores_other_keys Demo.cast self labelled Demo.sample
                  12 "2024-05-01T10:00:00" H)).
Defined.

Lemma process_item_error_witness :
  let self := Demo.monitor_with [] in
  let e := Py.ValueError "attempt to get argmax of an empty sequence" in
  let self' :=
    process_item Demo.cast Demo.fmt self Demo.sample 12 "2024-05-01T10:00:00" in
  predict Demo.cast (detector self) Demo.sample 12 "2024-05-01T10:00:00"
  = (detector self, [], inl e) /\
  report self'
  = ["Erro no processamento: attempt to get argmax of an empty sequence"] /\
  results self' = [] /\ log_file self' = [] /\
  detector self' = detector self.
Proof.
  intros self e self'.
  destruct (process_item_error Demo.cast Demo.fmt self Demo.sample 12
              "2024-05-01T10:00:00" (detector self) [] e eq_refl)
    as (H1 & H2 & H3 & H4 & _).
  split; [reflexivity |]. split; [exact H1 |]. split; [exact H2 |].
  split; [exact H3 | exact H4].
Defined.

Lemma worker_idle_witness :
  let self := Demo.monitor_with [1 # 20; 17 # 20; 1 # 20; 1 # 20] in
  let clock := [(12, "2024-05-01T10:00:00"); (8, "2024-05-01T10:00:01")] in
  data_queue self = [] /\
  process_data_stream Demo.cast Demo.fmt self clock = self /\
  process_data_stream Demo.cast Demo.fmt
    (stop_monitoring (add_data self Demo.sample)) clock
  = stop_monitoring (add_data self Demo.sample).
Proof.
  intros self clock. split; [reflexivity |]. split.
  - apply (proj1 (worker_idle Demo.cast Demo.fmt self clock)). reflexivity.
  - apply (proj2 (worker_idle Demo.cast Demo.fmt (add_data self Demo.sample) clock)).
Defined.

Lemma enqueue_then_drain_witness :
  let self := Demo.monitor_with [1 # 20; 17 # 20; 1 # 20; 1 # 20] in
  let items := [Demo.sample; ∅] in
  let clock := [(12, "2024-05-01T10:00:00"); (8, "2024-05-01T10:00:01")] in
  let self' :=
    process_data_stream Demo.cast Demo.fmt (fold_left add_data items self) clock in
  let run := predict_each Demo.cast (detector self) items clock in
  running self = true /\ data_queue self = [] /\
  data_queue self' = [] /\
  detector self' = run.1 /\
  results self' = results self ++ run.2 /\
  (length run.2 <= length items)%nat.
Proof.
  intros self items clock self' run.
  split; [reflexivity |]. split; [reflexivity |].
  apply (enqueue_then_drain Demo.cast Demo.fmt self items clock);
    [reflexivity | reflexivity | cbn; lia].
Defined.

Lemma worker_keeps_log_sound_witness :
  let self := add_data (Demo.monitor_with [1 # 20; 17 # 20; 1 # 20; 1 # 20]) Demo.sample in
  let clock := [(12, "2024-05-01T10:00:00")] in
  log_sound self /\
  log_sound (process_data_stream Demo.cast Demo.fmt self clock).
Proof.
  intros self clock.
  assert (H : log_sound self).
  { intros line Hline. cbn in Hline. by apply elem_of_nil in Hline. }
  split; [exact H |].
  exact (worker_keeps_log_sound Demo.cast Demo.fmt self clock H).
Defined.

Lemma save_all_results_overwrites_witness :
  let self :=
    process_item Demo.cast Demo.fmt
      (Demo.monitor_with [1 # 20; 17 # 20; 1 # 20; 1 # 20])
      Demo.sample 12 "2024-05-01T10:00:00" in
  is_Some (result_file self) /\ results self <> [] /\
  save_all_results Demo.fmt Demo.fmt Demo.fmt
    (save_result self "Interrompido pelo usuário") "2024-05-01 10:00:05"
  = save_all_results Demo.fmt Demo.fmt Demo.fmt self "2024-05-01 10:00:05".
Proof.
  intros self.
  assert (H1 : is_Some (result_file self)) by (eexists; reflexivity).
  assert (H2 : results self <> []) by (vm_compute; discriminate).
  split; [exact H1 |]. split; [exact H2 |].
  exact (save_all_results_overwrites Demo.fmt Demo.fmt Demo.fmt self
           "Interrompido pelo usuário" "2024-05-01 10:00:05" H1 H2).
Defined.

Lemma report_status_matches_notice_witness :
  let self := Demo.monitor_with [1 # 20; 1 # 20; 1 # 20; 17 # 20] in
  let self' :=
    process_item Demo.cast Demo.fmt self Demo.sample 12 "2024-05-01T10:00:00" in
  exists d printed r rest,
    predict Demo.cast (detector self) Demo.sample 12 "2024-05-01T10:00:00"
    = (d, printed, inr r) /\
    sample_status (confidence_threshold (detector self')) r = SUSPICIOUS /\
    report self'
    = report (after_predict self d printed)
      ++ notice Demo.fmt
           (sample_status (confidence_threshold (detector self')) r) r
         :: rest.
Proof.
  intros self self'.
  destruct (report_status_matches_notice Demo.cast Demo.fmt self Demo.sample 12
              "2024-05-01T10:00:00" _ _ _ eq_refl) as (rest & H).
  eexists _, _, _, rest. split; [reflexivity |]. split; [reflexivity | exact H].
Defined.

Example report_of_two_samples :
  let self :=
    process_data_stream Demo.cast Demo.fmt
      (fold_left add_data [Demo.sample; ∅]
         (Demo.monitor_with [1 # 20; 17 # 20; 1 # 20; 1 # 20]))
      [(12, "2024-05-01T10:00:00"); (8, "2024-05-01T10:00:01")] in
  exists lines,
    report_lines Demo.fmt Demo.fmt Demo.fmt self "2024-05-01 10:00:05" = inr lines /\
    lines !! 2%nat = Some "Total de amostras processadas: 2" /\
    lines !! 5%nat = Some "Ataques críticos detectados: 2" /\
    lines !! 12%nat = Some "DDoS-ICMP_Flood: 2 ocorrências" /\
    length lines = 39%nat.
Proof. intros self. eexists. split; [reflexivity |]. by vm_compute. Qed.

(* ===================================================================== *)
(* Configuration, confidence and output streams                          *)
(* ===================================================================== *)

Section Configuration.

Variable astype_float32 : Q -> Q.
Variable format_3f : Q -> string.

(** X20.  No call changes the configuration of a detector: after any
    sequence of calls the model, the scaler, the feature names, the
    classes, the threshold and the low-threat list are those it was
    created with. *)
Theorem detector_configuration_fixed self ops :
  let self' := run_ops astype_float32 self ops in
  session self' = session self /\
  scaler self' = scaler self /\
  feature_names self' = feature_names self /\
  classes self' = classes self /\
  confidence_threshold self' = confidence_threshold self /\
  low_threat_classes self' = low_threat_classes self.
Proof.
  cbn zeta. revert self. induction ops as [| op ops IH]; intros self; [done |].
  cbn [run_ops fold_left]. fold (run_ops astype_float32 (run_op astype_float32 self op) ops).
  destruct (IH (run_op astype_float32 self op)) as (H1 & H2 & H3 & H4 & H5 & H6).
  rewrite H1, H2, H3, H4, H5, H6.
  destruct op as [fd | fd t now |]; cbn [run_op]; try done.
  destruct (predict astype_float32 self fd t now)
    as [[self' printed] [e | r]] eqn:Hp; cbn [fst].
  - apply predict_raised in Hp. by subst.
  - apply predict_completed in Hp
      as (rest & row & idx & _ & _ & _ & _ & _ & _ & _ & -> & _).
    by destruct (Py.truthy (is_attack r)).
Qed.

(** X21.  The confidence of a result is at least the average of the
    probabilities returned by the model: with n classes and probabilities
    that sum to 1 it is never below 1/n. *)
Theorem confidence_at_least_average self features_dict inference_time now
    self' printed r :
  predict astype_float32 self features_dict inference_time now
  = (self', printed, inr r) ->
  Np.mean (all_probabilities r) <= confidence r /\
  (Np.sum (all_probabilities r) == 1 ->
   1 / inject_Z (Z.of_nat (length (all_probabilities r))) <= confidence r).
Proof.
  intros Hp.
  apply predict_completed in Hp
    as (rest & row & idx & _ & _ & Hidx & _ & Hconf & -> & _).
  destruct (argmax_first_max row idx Hidx) as (c & Hc & Hmax & _).
  assert (c = confidence r) as -> by congruence.
  assert (Hne : row <> []) by (intros ->; discriminate).
  assert (Hall : forall y, y ∈ row -> y <= y /\ y <= confidence r).
  { intros y Hy. apply list_elem_of_lookup in Hy as (j & Hj).
    split; [apply Qle_refl | by eapply Hmax]. }
  assert (Hn : 0 < inject_Z (Z.of_nat (length row))).
  { change 0 with (inject_Z 0). rewrite <- Zlt_Qlt. destruct row; [done | cbn; lia]. }
  assert (Hsum : Np.sum row <= inject_Z (Z.of_nat (length row)) * confidence r).
  { clear -Hall. induction row as [| y row IH].
    - unfold Np.sum. cbn [length fold_right].
      change (inject_Z (Z.of_nat 0)) with 0. lra.
    - assert (Hy : y <= confidence r) by (apply Hall; left).
      assert (IH' : Np.sum row <= inject_Z (Z.of_nat (length row)) * confidence r).
      { apply IH. intros z Hz. apply Hall. by right. }
      unfold Np.sum in *. cbn [length fold_right].
      rewrite Nat2Z.inj_succ, <- Z.add_1_r, inject_Z_plus.
      change (inject_Z 1) with 1. lra. }
  split.
  - unfold Np.mean. apply Qle_shift_div_r; [done |]. by rewrite Qmult_comm.
  - intros H1. apply Qle_shift_div_r; [done |]. rewrite <- H1.
    by rewrite Qmult_comm.
Qed.

Lemma save_result_to_file self message old :
  result_file self = Some old ->
  result_file (save_result self message) = Some (old ++ [message]) /\
  stdout (save_result self message) = stdout self.
Proof. intros H. unfold save_result. by rewrite H. Qed.

Lemma save_result_to_stdout self message :
  result_file self = None ->
  result_file (save_result self message) = None /\
  stdout (save_result self message) = stdout self ++ [message].
Proof. intros H. unfold save_result. by rewrite H. Qed.

(** X22.  With a report file configured, everything the worker says about
    an item goes to that file and only what the detector prints (the
    scaler warning) goes to the standard output; without one, the
    detector's lines come first on the standard output, followed by the
    worker's. *)
Theorem process_item_streams self features_dict inference_time now :
  let outcome :=
    predict astype_float32 (detector self) features_dict inference_time now in
  let self' :=
    process_item astype_float32 format_3f self features_dict inference_time now in
  exists messages,
    messages <> [] /\
    match result_file self with
    | Some old =>
        result_file self' = Some (old ++ messages) /\
        stdout self' = stdout self ++ outcome.1.2
    | None =>
        result_file self' = None /\
        stdout self' = stdout self ++ outcome.1.2 ++ messages
    end.
Proof.
  cbn zeta. unfold process_item.
  destruct (predict astype_float32 (detector self) features_dict inference_time now)
    as [[d printed] outcome]. cbn [fst snd].
  set (self0 := after_predict self d printed).
  assert (Hone : forall m msg,
    result_file m = result_file self -> stdout m = stdout self ++ printed ->
    match result_file self with
    | Some old =>
        result_file (save_result m msg) = Some (old ++ [msg]) /\
        stdout (save_result m msg) = stdout self ++ printed
    | None =>
        result_file (save_result m msg) = None /\
        stdout (save_result m msg) = stdout self ++ printed ++ [msg]
    end).
  { intros m msg Hf Hs. destruct (result_file self) as [old |] eqn:E.
    - destruct (save_result_to_file m msg old Hf) as [-> ->]. by rewrite Hs.
    - destruct (save_result_to_stdout m msg Hf) as [-> ->].
      by rewrite Hs, <- app_assoc. }
  destruct outcome as [e | r].
  - exists [error_msg e]. split; [done |]. by apply Hone.
  - set (self1 := append_result self0 r).
    destruct (Py.truthy (is_attack r)).
    + unfold log_detection. destruct (json_dumps r) as [e | line].
      * exists [notice format_3f CRITICAL r; error_msg e]. split; [done |].
        pose proof (Hone self1 (notice format_3f CRITICAL r) eq_refl eq_refl) as H1.
        destruct (result_file self) as [old |] eqn:E.
        -- destruct H1 as [H1 H2].
           destruct (save_result_to_file _ (error_msg e) _ H1) as [-> ->].
           by rewrite H2, <- app_assoc.
        -- destruct H1 as [H1 H2].
           destruct (save_result_to_stdout _ (error_msg e) H1) as [-> ->].
           by rewrite H2, <- !app_assoc.
      * exists [notice format_3f CRITICAL r]. split; [done |].
        cbn [result_file stdout]. by apply Hone.
    + destruct (is_benign r); [| destruct (Py.geb _ _)];
        eexists [_]; (split; [done |]); by apply Hone.
Qed.

End Configuration.

Lemma confidence_at_least_average_witness :
  let self := Demo.detector_with [1 # 10; 2 # 5; 2 # 5; 1 # 10] in
  exists self' printed r,
    predict Demo.cast self Demo.sample 12 "2024-05-01T10:00:00"
    = (self', printed, inr r) /\
    Np.sum (all_probabilities r) == 1 /\
    1 / inject_Z (Z.of_nat (length (all_probabilities r))) <= confidence r.
Proof.
  intros self. eexists _, _, _. split; [reflexivity |]. split; [reflexivity |].
  refine (proj2 (confidence_at_least_average Demo.cast self Demo.sample 12
                   "2024-05-01T10:00:00" _ _ _ _) _); reflexivity.
Defined.
